(** * LiveAuth MCP bridge: the tool dispatcher and its session state

    A shallow embedding of the request handler that the server installs for
    tool calls (the [CallToolRequestSchema] handler of the TypeScript
    source), together with the in-process state it reads and writes: the
    cached JWT and, in demo mode, the map of demo sessions.

    The handler is asynchronous JavaScript working on untyped JSON values,
    so the embedding has a small model of those values (truthiness, [||],
    [??], property access, template-literal conversion), an exception and
    state monad for the handler bodies, and a per-call environment that
    gives the readings of [Date.now()], the output of [Math.random()] and
    the outcome of [fetch].  Every outbound request is recorded, so that
    statements about what is, or is not, sent on the wire can be made. *)

From Stdlib Require Import ZArith Bool Lia.
From stdpp Require Import base tactics option list strings pretty.

Local Open Scope Z_scope.
Set Warnings "-register-all".

(** ** JavaScript values *)

Module Js.

(** JSON-shaped values.  Numbers are the integers: every number the handler
    inspects is a count, a size in bits or a Unix time. *)
Inductive JsVal : Type :=
| VUndef
| VNull
| VBool (b : bool)
| VNum (n : Z)
| VStr (s : string)
| VObj (props : list (string * JsVal))
| VArr (items : list JsVal).

(** ToBoolean. *)
Definition truthy (v : JsVal) : bool :=
  match v with
  | VUndef | VNull => false
  | VBool b => b
  | VNum n => negb (n =? 0)
  | VStr s => negb (String.eqb s "")
  | VObj _ | VArr _ => true
  end.

Definition nullish (v : JsVal) : bool :=
  match v with
  | VUndef | VNull => true
  | _ => false
  end.

(** [v === undefined]. *)
Definition is_undef (v : JsVal) : bool :=
  match v with
  | VUndef => true
  | _ => false
  end.

(** [a || b] and [a ?? b]. *)
Definition js_or (a b : JsVal) : JsVal := if truthy a then a else b.
Definition js_coalesce (a b : JsVal) : JsVal := if nullish a then b else a.

(** Own properties of an object literal, in insertion order. *)
Fixpoint assoc (k : string) (ps : list (string * JsVal)) : option JsVal :=
  match ps with
  | [] => None
  | (k', v) :: ps' => if String.eqb k k' then Some v else assoc k ps'
  end.

(** [o[k] = v]: overwrite in place, or append. *)
Fixpoint set_prop (k : string) (v : JsVal) (ps : list (string * JsVal))
  : list (string * JsVal) :=
  match ps with
  | [] => [(k, v)]
  | (k', v') :: ps' =>
      if String.eqb k k' then (k, v) :: ps' else (k', v') :: set_prop k v ps'
  end.

(** [v.k] for a value that is neither [undefined] nor [null]; the keys the
    handler reads are plain data fields, which primitives and arrays do not
    have. *)
Definition prop (v : JsVal) (k : string) : JsVal :=
  match v with
  | VObj ps => default VUndef (assoc k ps)
  | _ => VUndef
  end.

(** [k in v] for an object or an array; [None] is the TypeError that the
    operator raises on a primitive. *)
Definition js_in (k : string) (v : JsVal) : option bool :=
  match v with
  | VObj ps => Some (bool_decide (is_Some (assoc k ps)))
  | VArr _ => Some false
  | _ => None
  end.

(** [v === 'lit']. *)
Definition is_str (lit : string) (v : JsVal) : bool :=
  match v with
  | VStr s => String.eqb s lit
  | _ => false
  end.

(** ToString, as a template literal and [new Error(message)] apply it: the
    string that the conversion returns, when it returns.  A safe integer
    (of magnitude up to 2^53) is printed in decimal; beyond, JavaScript
    prints the shortest digits that give back the number, padded with
    zeros or in exponent form, which is left to the platform as [beyond]. *)
Fixpoint to_string (beyond : Z -> string) (v : JsVal) : string :=
  match v with
  | VUndef => "undefined"
  | VNull => "null"
  | VBool true => "true"
  | VBool false => "false"
  | VNum n => if Z.abs n <=? 9007199254740992 then pretty n else beyond n
  | VStr s => s
  | VObj _ => "[object Object]"
  | VArr xs =>
      (fix join (l : list JsVal) : string :=
         match l with
         | [] => ""
         | x :: r =>
             let e := if nullish x then "" else to_string beyond x in
             match r with
             | [] => e
             | _ => e +:+ "," +:+ join r
             end
         end) xs
  end.

(** Whether ToString returns at all.  A value parsed from JSON holds no
    function, so an object with an own [toString] property has nothing
    callable left but [Object.prototype.valueOf], which returns the object
    itself: the conversion raises a TypeError.  An object without that
    property is converted by [Object.prototype.toString], and an array
    joins the conversions of its items. *)
Fixpoint converts (v : JsVal) : bool :=
  match v with
  | VObj ps =>
      match assoc "toString" ps with
      | Some _ => false
      | None => true
      end
  | VArr xs =>
      (fix all (l : list JsVal) : bool :=
         match l with
         | [] => true
         | x :: r => (nullish x || converts x) && all r
         end) xs
  | _ => true
  end.

(** SameValueZero, the key equality of [Map].  Objects and arrays are
    compared by reference, and two values parsed from different messages
    are never the same reference. *)
Definition same_value_zero (a b : JsVal) : bool :=
  match a, b with
  | VUndef, VUndef => true
  | VNull, VNull => true
  | VBool x, VBool y => Bool.eqb x y
  | VNum x, VNum y => x =? y
  | VStr x, VStr y => String.eqb x y
  | _, _ => false
  end.

(** What [JSON.stringify] keeps of a value: a property whose value is
    [undefined] is dropped, an [undefined] array item is written [null]. *)
Fixpoint json_norm (v : JsVal) : JsVal :=
  match v with
  | VObj ps =>
      VObj ((fix props (l : list (string * JsVal)) : list (string * JsVal) :=
               match l with
               | [] => []
               | (k, VUndef) :: r => props r
               | (k, x) :: r => (k, json_norm x) :: props r
               end) ps)
  | VArr xs =>
      VArr ((fix items (l : list JsVal) : list JsVal :=
               match l with
               | [] => []
               | VUndef :: r => VNull :: items r
               | x :: r => json_norm x :: items r
               end) xs)
  | _ => v
  end.

(** The properties that survive serialisation, as a function of its own. *)
Fixpoint norm_props (l : list (string * JsVal)) : list (string * JsVal) :=
  match l with
  | [] => []
  | (k, x) :: r =>
      (if is_undef x then [] else [(k, json_norm x)]) ++ norm_props r
  end.

(** Values that JSON can carry: no [undefined] anywhere.  The argument bag
    of a tool call and the body of a response are such values. *)
Fixpoint is_json (v : JsVal) : bool :=
  match v with
  | VUndef => false
  | VObj ps =>
      (fix all (l : list (string * JsVal)) : bool :=
         match l with
         | [] => true
         | (_, x) :: r => is_json x && all r
         end) ps
  | VArr xs =>
      (fix all (l : list JsVal) : bool :=
         match l with
         | [] => true
         | x :: r => is_json x && all r
         end) xs
  | _ => true
  end.

(** [s.includes(sub)], as a proposition. *)
Definition includes (s sub : string) : Prop :=
  exists pre post : string, s = pre +:+ sub +:+ post.

(** The same test as a function: [p] at the head of [s], and [sub]
    somewhere in [s]. *)
Fixpoint prefixb (p s : string) : bool :=
  match p, s with
  | EmptyString, _ => true
  | String a p', String b s' => Ascii.eqb a b && prefixb p' s'
  | String _ _, EmptyString => false
  end.

Fixpoint includesb (s sub : string) : bool :=
  prefixb sub s
  || match s with
     | EmptyString => false
     | String _ s' => includesb s' sub
     end.

(** [s.startsWith(p)]. *)
Definition starts_with (s p : string) : Prop :=
  exists post : string, s = p +:+ post.

(** A piece of text: a literal string, or the JSON serialisation of a
    value.  [JsonText v] stands for the characters [JSON.stringify] writes
    for [v], whatever the indentation. *)
Inductive Text : Type :=
| Lit (s : string)
| JsonText (v : JsVal).

Definition JSON_stringify (v : JsVal) : Text := JsonText (json_norm v).

(** Field of a serialised object, as the receiver parses it. *)
Definition json_field (t : Text) (k : string) : option JsVal :=
  match t with
  | JsonText (VObj ps) => assoc k ps
  | _ => None
  end.

Definition json_keys (t : Text) : list string :=
  match t with
  | JsonText (VObj ps) => map fst ps
  | _ => []
  end.

(** Thrown values: every one the handler can meet is an [Error] object. *)
Inductive ErrorClass : Type := PlainError | TypeError | SyntaxError | FetchError.

Record JsError : Type := mkError { err_class : ErrorClass; message : string }.

End Js.

(** ** The server *)

Module Bridge.
Import Js.

(** *** Configuration, read once from the process environment *)

Record ProcessEnv : Type := {
  env_LIVEAUTH_API_BASE : option string;
  env_LIVEAUTH_API_KEY : option string;
  env_LIVEAUTH_DEMO : option string
}.

(** [process.env.X || fallback]: an unset or empty variable gives the
    fallback. *)
Definition env_or (x : option string) (fallback : string) : string :=
  match x with
  | Some s => if String.eqb s "" then fallback else s
  | None => fallback
  end.

Definition LIVEAUTH_API_BASE (pe : ProcessEnv) : string :=
  env_or (env_LIVEAUTH_API_BASE pe) "https://api.liveauth.app".

Definition LIVEAUTH_API_KEY (pe : ProcessEnv) : string :=
  env_or (env_LIVEAUTH_API_KEY pe) "".

Definition LIVEAUTH_DEMO (pe : ProcessEnv) : bool :=
  match env_LIVEAUTH_DEMO pe with
  | Some s => String.eqb s "true"
  | None => false
  end || String.eqb (LIVEAUTH_API_KEY pe) "".

(** *** Session state *)

Record DemoSession : Type := {
  quoteId : JsVal;
  invoice : JsVal;
  amountSats : JsVal;
  paymentHash : JsVal;
  paid : bool;
  createdAt : Z
}.

(** [session.paid = true] on the object held by the map. *)
Definition mark_paid (s : DemoSession) : DemoSession :=
  {| quoteId := quoteId s; invoice := invoice s; amountSats := amountSats s;
     paymentHash := paymentHash s; paid := true; createdAt := createdAt s |}.

(** A [Map] keyed by session id, in insertion order. *)
Definition SessionMap : Type := list (JsVal * DemoSession).

Fixpoint map_get (k : JsVal) (m : SessionMap) : option DemoSession :=
  match m with
  | [] => None
  | (k', s) :: m' => if same_value_zero k k' then Some s else map_get k m'
  end.

Definition map_has (k : JsVal) (m : SessionMap) : bool :=
  match map_get k m with Some _ => true | None => false end.

Fixpoint map_set (k : JsVal) (s : DemoSession) (m : SessionMap) : SessionMap :=
  match m with
  | [] => [(k, s)]
  | (k', s') :: m' =>
      if same_value_zero k k' then (k', s) :: m' else (k', s') :: map_set k s m'
  end.

(** Mutation of the record that [map_get] returns. *)
Fixpoint map_update (k : JsVal) (f : DemoSession -> DemoSession) (m : SessionMap)
  : SessionMap :=
  match m with
  | [] => []
  | (k', s') :: m' =>
      if same_value_zero k k' then (k', f s') :: m'
      else (k', s') :: map_update k f m'
  end.

Record State : Type := {
  cachedJwt : JsVal;
  demoSessions : SessionMap
}.

(** The state of a process that has just started. *)
Definition initial : State := {| cachedJwt := VNull; demoSessions := [] |}.

(** *** The network and the rest of the platform *)

Record HttpRequest : Type := {
  url : string;
  method : string;
  headers : list (string * string);
  body : option Text
}.

Record Response : Type := {
  ok : bool;
  statusText : string;
  (** the parsed body; [None] when the body is not JSON and [json()]
      rejects *)
  json_body : option JsVal
}.

Inductive FetchOutcome : Type :=
| Rejected (e : JsError)
| Responded (r : Response).

(** What one invocation meets outside the process. *)
Record World : Type := {
  (** the successive readings of [Date.now()] *)
  Date_now : nat -> Z;
  (** [Math.random().toString(36).substr(2, 9)] *)
  Math_random_36 : string;
  (** [new Date(ms).toISOString()] *)
  toISOString : Z -> string;
  (** how a number beyond the safe integers is printed *)
  Number_toString : Z -> string;
  (** what [response.json()] rejects with when the body is not JSON *)
  json_rejection : Response -> JsError;
  fetch_outcome : HttpRequest -> FetchOutcome
}.

(** [`${v}`], when the conversion returns. *)
Definition to_str (w : World) (v : JsVal) : string :=
  to_string (Number_toString w) v.

Fixpoint header (k : string) (hs : list (string * string)) : option string :=
  match hs with
  | [] => None
  | (k', v) :: hs' => if String.eqb k k' then Some v else header k hs'
  end.

(** *** Handler bodies: state, exceptions, and a log of what was sent *)

Record Sys : Type := {
  store : State;
  sent : list HttpRequest;
  logged : list string
}.

Inductive Completion (A : Type) : Type :=
| Normal (a : A)
| Thrown (e : JsError).
Arguments Normal {A} a.
Arguments Thrown {A} e.

Definition M (A : Type) : Type := Sys -> Completion A * Sys.

Definition ret {A} (a : A) : M A := fun s => (Normal a, s).

Definition bind {A B} (m : M A) (k : A -> M B) : M B :=
  fun s =>
    match m s with
    | (Normal a, s') => k a s'
    | (Thrown e, s') => (Thrown e, s')
    end.

Definition throw {A} (e : JsError) : M A := fun s => (Thrown e, s).

Declare Scope js_scope.
Delimit Scope js_scope with js.
Notation "x <- m ;; k" := (bind m (fun x => k))
  (at level 100, m at next level, right associativity) : js_scope.
Notation "m ;;; k" := (bind m (fun _ => k))
  (at level 100, right associativity) : js_scope.
Local Open Scope js_scope.

Definition get_cachedJwt : M JsVal := fun s => (Normal (cachedJwt (store s)), s).

Definition set_cachedJwt (v : JsVal) : M unit :=
  fun s =>
    (Normal tt,
     {| store := {| cachedJwt := v; demoSessions := demoSessions (store s) |};
        sent := sent s; logged := logged s |}).

Definition get_demoSessions : M SessionMap :=
  fun s => (Normal (demoSessions (store s)), s).

Definition set_demoSessions (m : SessionMap) : M unit :=
  fun s =>
    (Normal tt,
     {| store := {| cachedJwt := cachedJwt (store s); demoSessions := m |};
        sent := sent s; logged := logged s |}).

Definition console_error (line : string) : M unit :=
  fun s =>
    (Normal tt,
     {| store := store s; sent := sent s; logged := logged s ++ [line] |}).

(** [await fetch(url, init)]: the request leaves the process, then the
    promise settles. *)
Definition fetch (w : World) (req : HttpRequest) : M Response :=
  fun s =>
    let s' := {| store := store s; sent := sent s ++ [req]; logged := logged s |} in
    match fetch_outcome w req with
    | Rejected e => (Thrown e, s')
    | Responded r => (Normal r, s')
    end.

(** [await response.json()]. *)
Definition response_json (w : World) (r : Response) : M JsVal :=
  match json_body r with
  | Some v => ret v
  | None => throw (json_rejection w r)
  end.

(** The conversion of [v] to a string, where a template literal or
    [new Error(v)] makes it: nothing happens, or a TypeError is thrown. *)
Definition convert (v : JsVal) : M unit :=
  if converts v then ret tt
  else throw (mkError TypeError "Cannot convert object to primitive value").

(** [v.k]: a TypeError on [undefined] and [null]. *)
Definition member (v : JsVal) (k : string) : M JsVal :=
  if nullish v then
    throw (mkError TypeError
             ("Cannot read properties of "
                +:+ (if is_undef v then "undefined" else "null")
                +:+ " (reading '" +:+ k +:+ "')"))
  else ret (prop v k).

(** [const { first, ... } = args]: a TypeError when the argument bag is
    missing. *)
Definition destructure (args : JsVal) (first : string) : M unit :=
  if nullish args then
    throw (mkError TypeError
             ("Cannot destructure property '" +:+ first +:+ "' of 'args' as it is "
                +:+ (if is_undef args then "undefined" else "null") +:+ "."))
  else ret tt.

(** ['k' in v]. *)
Definition has_member (w : World) (k : string) (v : JsVal) : M bool :=
  match js_in k v with
  | Some b => ret b
  | None =>
      throw (mkError TypeError
               ("Cannot use 'in' operator to search for '" +:+ k +:+ "' in "
                  +:+ to_str w v))
  end.

(** *** Results *)

(** [{ content: [{ type: 'text', text }], isError }]; [isError] is [false]
    when the field is left out. *)
Record Envelope : Type := {
  text : Text;
  isError : bool
}.

Definition text_result (t : Text) : Envelope := {| text := t; isError := false |}.

(** The helper of the source that builds the headers of the calls made on
    behalf of the bridge itself. *)
Definition getAuthHeaders (pe : ProcessEnv) : list (string * string) :=
  [("Content-Type", "application/json")]
    ++ (if negb (String.eqb (LIVEAUTH_API_KEY pe) "") && negb (LIVEAUTH_DEMO pe)
        then [("X-LW-Public", LIVEAUTH_API_KEY pe)] else []).

(** The headers of charge and usage: the cached JWT, when there is one. *)
Definition authHeaders (w : World) (jwt : JsVal) : list (string * string) :=
  [("Content-Type", "application/json")]
    ++ (if truthy jwt then [("Authorization", "Bearer " +:+ to_str w jwt)] else []).

(** The conversion that the [Bearer] template makes, when the JWT is
    truthy. *)
Definition convert_bearer (jwt : JsVal) : M unit :=
  if truthy jwt then convert jwt else ret tt.

(** The message handed to [new Error] for a response that is not 2xx. *)
Definition failure_message (what : string) (response : Response) (error : JsVal) : JsVal :=
  js_or (prop error "error_description")
        (VStr (what +:+ " failed: " +:+ statusText response)).

(** The shared reaction to a response that is not 2xx. *)
Definition check_ok (w : World) (what : string) (response : Response) : M unit :=
  if ok response then ret tt
  else
    error <- response_json w response ;;
    description <- member error "error_description" ;;
    convert (failure_message what response error) ;;;
    throw (mkError PlainError (to_str w (failure_message what response error))).

(** *** The tools *)

Section Handlers.

Variable pe : ProcessEnv.
Variable w : World.

(** [case 'liveauth_mcp_start'] *)
Definition start_endpoint : string :=
  if LIVEAUTH_DEMO pe
  then LIVEAUTH_API_BASE pe +:+ "/api/public/demo/start"
  else LIVEAUTH_API_BASE pe +:+ "/api/mcp/start".

Definition start_request (args : JsVal) : HttpRequest :=
  {| url := start_endpoint;
     method := "POST";
     headers := getAuthHeaders pe;
     body := Some (JSON_stringify
                     (VObj [("forceLightning",
                             js_coalesce (prop args "forceLightning") (VBool false))])) |}.

(** [result.quoteId || demoResult.sessionId] *)
Definition start_sessionId (result : JsVal) : JsVal :=
  js_or (prop result "quoteId") (prop result "sessionId").

Definition start_session (result : JsVal) : DemoSession :=
  let inv := prop result "invoice" in
  {| quoteId := start_sessionId result;
     invoice := js_or (prop inv "bolt11") inv;
     amountSats := js_or (js_or (prop inv "amountSats") (prop result "amountSats")) (VNum 0);
     paymentHash := js_or (prop inv "paymentHash") (VStr "");
     paid := false;
     createdAt := Date_now w 0 |}.

Definition start_demo_reply (result : JsVal) : JsVal :=
  let inv := prop result "invoice" in
  VObj [("quoteId", start_sessionId result);
        ("powChallenge", VNull);
        ("invoice",
         if truthy inv then
           VObj [("bolt11", js_or (prop inv "bolt11") inv);
                 ("amountSats",
                  js_or (js_or (prop inv "amountSats") (prop result "amountSats")) (VNum 0));
                 ("expiresAtUnix",
                  js_or (prop inv "expiresAtUnix") (prop result "expiresAtUnix"));
                 ("paymentHash", js_or (prop inv "paymentHash") (VStr ""))]
         else VNull);
        ("_demo", VBool true);
        ("_instructions",
         VStr "Demo mode: Payment simulated. Use liveauth_mcp_confirm to complete.")].

Definition handle_start (args : JsVal) : M Envelope :=
  destructure args "forceLightning" ;;;
  response <- fetch w (start_request args) ;;
  check_ok w "Start" response ;;;
  result <- response_json w response ;;
  demo_shape <- (if LIVEAUTH_DEMO pe then has_member w "invoice" result else ret false) ;;
  if demo_shape then
    (if truthy (prop result "invoice") then
       sessions <- get_demoSessions ;;
       set_demoSessions (map_set (start_sessionId result) (start_session result) sessions)
     else ret tt) ;;;
    ret (text_result (JSON_stringify (start_demo_reply result)))
  else ret (text_result (JSON_stringify result)).

(** [case 'liveauth_mcp_confirm'] *)

(** The object [body] after the six conditional assignments. *)
Definition confirm_body (args : JsVal) : list (string * JsVal) :=
  let body := [("quoteId", prop args "quoteId")] in
  let body := if truthy (prop args "challengeHex")
              then set_prop "challengeHex" (prop args "challengeHex") body else body in
  let body := if negb (is_undef (prop args "nonce"))
              then set_prop "nonce" (prop args "nonce") body else body in
  let body := if truthy (prop args "hashHex")
              then set_prop "hashHex" (prop args "hashHex") body else body in
  let body := if truthy (prop args "expiresAtUnix")
              then set_prop "expiresAtUnix" (prop args "expiresAtUnix") body else body in
  let body := if truthy (prop args "difficultyBits")
              then set_prop "difficultyBits" (prop args "difficultyBits") body else body in
  let body := if truthy (prop args "signature")
              then set_prop "sig" (prop args "signature") body else body in
  body.

(** What the receiver finds in the serialised [body]: each field next to
    the guard that lets it in. *)
Definition confirm_wire (args : JsVal) : list (string * JsVal) :=
  let field (keep : bool) (k : string) (v : JsVal) :=
    if keep then [(k, json_norm v)] else [] in
  field (negb (is_undef (prop args "quoteId"))) "quoteId" (prop args "quoteId")
    ++ field (truthy (prop args "challengeHex")) "challengeHex" (prop args "challengeHex")
    ++ field (negb (is_undef (prop args "nonce"))) "nonce" (prop args "nonce")
    ++ field (truthy (prop args "hashHex")) "hashHex" (prop args "hashHex")
    ++ field (truthy (prop args "expiresAtUnix")) "expiresAtUnix" (prop args "expiresAtUnix")
    ++ field (truthy (prop args "difficultyBits")) "difficultyBits" (prop args "difficultyBits")
    ++ field (truthy (prop args "signature")) "sig" (prop args "signature").

Definition confirm_request (args : JsVal) : HttpRequest :=
  {| url := LIVEAUTH_API_BASE pe +:+ "/api/mcp/confirm";
     method := "POST";
     headers := getAuthHeaders pe;
     body := Some (JSON_stringify (VObj (confirm_body args))) |}.

Definition demoJwt : string :=
  "demo_jwt_" +:+ to_str w (VNum (Date_now w 0)) +:+ "_" +:+ Math_random_36 w.

Definition confirm_demo_reply : JsVal :=
  VObj [("jwt", VStr demoJwt);
        ("expiresIn", VNum 3600);
        ("remainingBudgetSats", VNum 1000);
        ("paymentStatus", VStr "paid");
        ("_demo", VBool true);
        ("_note", VStr "Demo mode - this is a simulated JWT")].

Definition pending_notice (quoteId : JsVal) : string :=
  "Lightning payment pending. Poll with liveauth_mcp_status using quoteId: "
    +:+ to_str w quoteId.

Definition handle_confirm (args : JsVal) : M Envelope :=
  destructure args "quoteId" ;;;
  let quoteId := prop args "quoteId" in
  sessions <- get_demoSessions ;;
  if LIVEAUTH_DEMO pe && map_has quoteId sessions then
    set_demoSessions (map_update quoteId mark_paid sessions) ;;;
    set_cachedJwt (VStr demoJwt) ;;;
    ret (text_result (JSON_stringify confirm_demo_reply))
  else
    response <- fetch w (confirm_request args) ;;
    check_ok w "Confirm" response ;;;
    result <- response_json w response ;;
    paymentStatus <- member result "paymentStatus" ;;
    if is_str "pending" paymentStatus then
      convert quoteId ;;;
      ret (text_result (Lit (pending_notice quoteId)))
    else
      (if truthy (prop result "jwt") then set_cachedJwt (prop result "jwt") else ret tt) ;;;
      (if truthy (prop result "refreshToken") then
         convert (prop result "refreshToken") ;;;
         console_error ("Refresh token: " +:+ to_str w (prop result "refreshToken")
                          +:+ " (save this to refresh without re-auth)")
       else ret tt) ;;;
      ret (text_result (JSON_stringify result)).

(** [case 'liveauth_mcp_charge'] *)
Definition charge_request (jwt args : JsVal) : HttpRequest :=
  {| url := LIVEAUTH_API_BASE pe +:+ "/api/mcp/charge";
     method := "POST";
     headers := authHeaders w jwt;
     body := Some (JSON_stringify (VObj [("callCostSats", prop args "callCostSats")])) |}.

Definition deny_text (result : JsVal) : string :=
  "Budget exceeded! Calls used: " +:+ to_str w (prop result "callsUsed")
    +:+ ", Sats used: " +:+ to_str w (prop result "satsUsed")
    +:+ ". Stop making API calls.".

Definition handle_charge (args : JsVal) : M Envelope :=
  destructure args "callCostSats" ;;;
  jwt <- get_cachedJwt ;;
  convert_bearer jwt ;;;
  response <- fetch w (charge_request jwt args) ;;
  check_ok w "Charge" response ;;;
  result <- response_json w response ;;
  status <- member result "status" ;;
  if is_str "deny" status then
    convert (prop result "callsUsed") ;;;
    convert (prop result "satsUsed") ;;;
    ret {| text := Lit (deny_text result); isError := true |}
  else ret (text_result (JSON_stringify result)).

(** [case 'liveauth_mcp_usage'] *)
Definition usage_demo_reply : JsVal :=
  VObj [("status", VStr "active");
        ("callsUsed", VNum 0);
        ("satsUsed", VNum 0);
        ("maxSatsPerDay", VNum 1000);
        ("remainingBudgetSats", VNum 1000);
        ("maxCallsPerMinute", VNum 60);
        ("_demo", VBool true)].

Definition usage_request (jwt : JsVal) : HttpRequest :=
  {| url := LIVEAUTH_API_BASE pe +:+ "/api/mcp/usage";
     method := "GET";
     headers := authHeaders w jwt;
     body := None |}.

Definition handle_usage (args : JsVal) : M Envelope :=
  if LIVEAUTH_DEMO pe then
    ret (text_result (JSON_stringify usage_demo_reply))
  else
    jwt <- get_cachedJwt ;;
    convert_bearer jwt ;;;
    response <- fetch w (usage_request jwt) ;;
    check_ok w "Usage query" response ;;;
    result <- response_json w response ;;
    ret (text_result (JSON_stringify result)).

(** [case 'liveauth_mcp_status'] *)

(** [if (!session.paid && Date.now() - session.createdAt > 2000)
    session.paid = true] *)
Definition status_poll (session : DemoSession) : DemoSession :=
  if negb (paid session) && (2000 <? Date_now w 0 - createdAt session)
  then mark_paid session else session.

(** The reading of [Date.now()] that dates [expiresAt]: the second one, or
    the first when the session was paid already and the test above did not
    read the clock. *)
Definition status_now (session : DemoSession) : Z :=
  if paid session then Date_now w 0 else Date_now w 1.

Definition status_demo_reply (now : Z) (session : DemoSession) : JsVal :=
  VObj [("quoteId", quoteId session);
        ("status", VStr (if paid session then "confirmed" else "pending"));
        ("paymentStatus", VStr (if paid session then "paid" else "pending"));
        ("expiresAt", VStr (toISOString w (now + 300000)));
        ("_demo", VBool true);
        ("_instructions",
         VStr (if paid session
               then "Payment confirmed in demo mode. Use liveauth_mcp_confirm to get JWT."
               else "Demo mode: Invoice generated but not actually paid. Use liveauth_mcp_confirm to simulate completion."))].

Definition status_request (args : JsVal) : HttpRequest :=
  {| url := LIVEAUTH_API_BASE pe +:+ "/api/mcp/status/" +:+ to_str w (prop args "quoteId");
     method := "GET";
     headers := getAuthHeaders pe;
     body := None |}.

Definition handle_status (args : JsVal) : M Envelope :=
  destructure args "quoteId" ;;;
  let quoteId := prop args "quoteId" in
  sessions <- get_demoSessions ;;
  match (if LIVEAUTH_DEMO pe then map_get quoteId sessions else None) with
  | Some session =>
      set_demoSessions (map_update quoteId status_poll sessions) ;;;
      ret (text_result
             (JSON_stringify (status_demo_reply (status_now session) (status_poll session))))
  | None =>
      convert quoteId ;;;
      response <- fetch w (status_request args) ;;
      check_ok w "Status check" response ;;;
      result <- response_json w response ;;
      ret (text_result (JSON_stringify result))
  end.

(** [case 'liveauth_mcp_lnurl'] *)
Definition lnurl_request (args : JsVal) : HttpRequest :=
  {| url := LIVEAUTH_API_BASE pe +:+ "/api/mcp/lnurl/" +:+ to_str w (prop args "quoteId");
     method := "GET";
     headers := getAuthHeaders pe;
     body := None |}.

Definition handle_lnurl (args : JsVal) : M Envelope :=
  destructure args "quoteId" ;;;
  convert (prop args "quoteId") ;;;
  response <- fetch w (lnurl_request args) ;;
  check_ok w "Lnurl fetch" response ;;;
  result <- response_json w response ;;
  ret (text_result (JSON_stringify result)).

(** [case 'liveauth_mcp_refresh'] *)
Definition refresh_request (args : JsVal) : HttpRequest :=
  {| url := LIVEAUTH_API_BASE pe +:+ "/api/mcp/refresh";
     method := "POST";
     headers := [("Content-Type", "application/json")];
     body := Some (JSON_stringify (VObj [("refreshToken", prop args "refreshToken")])) |}.

Definition handle_refresh (args : JsVal) : M Envelope :=
  destructure args "refreshToken" ;;;
  response <- fetch w (refresh_request args) ;;
  check_ok w "Refresh" response ;;;
  result <- response_json w response ;;
  jwt <- member result "jwt" ;;
  set_cachedJwt jwt ;;;
  ret (text_result (JSON_stringify result)).

(** *** The dispatcher *)

(** The names of the [TOOLS] array, in its order. *)
Definition TOOLS : list string :=
  ["liveauth_mcp_start"; "liveauth_mcp_status"; "liveauth_mcp_lnurl";
   "liveauth_mcp_confirm"; "liveauth_mcp_charge"; "liveauth_mcp_usage";
   "liveauth_mcp_refresh"].

Definition dispatch (name : string) (args : JsVal) : M Envelope :=
  if String.eqb name "liveauth_mcp_start" then handle_start args
  else if String.eqb name "liveauth_mcp_confirm" then handle_confirm args
  else if String.eqb name "liveauth_mcp_charge" then handle_charge args
  else if String.eqb name "liveauth_mcp_usage" then handle_usage args
  else if String.eqb name "liveauth_mcp_status" then handle_status args
  else if String.eqb name "liveauth_mcp_lnurl" then handle_lnurl args
  else if String.eqb name "liveauth_mcp_refresh" then handle_refresh args
  else throw (mkError PlainError ("Unknown tool: " +:+ name)).

(** The [catch] block. *)
Definition error_envelope (e : JsError) : Envelope :=
  {| text := Lit ("Error: " +:+ message e); isError := true |}.

(** What one tool call leaves behind. *)
Record Outcome : Type := {
  reply : Envelope;
  after : State;
  requests : list HttpRequest;
  stderr : list string
}.

(** The request handler: [try { switch (name) ... } catch (error) ...]. *)
Definition invoke (name : string) (args : JsVal) (st : State) : Outcome :=
  match dispatch name args {| store := st; sent := []; logged := [] |} with
  | (Normal r, s) =>
      {| reply := r; after := store s; requests := sent s; stderr := logged s |}
  | (Thrown e, s) =>
      {| reply := error_envelope e; after := store s; requests := sent s;
         stderr := logged s |}
  end.

End Handlers.

(** A field of the payload of a request, as the remote service parses it. *)
Definition wire_field (req : HttpRequest) (k : string) : option JsVal :=
  match body req with
  | Some t => json_field t k
  | None => None
  end.


(** The demo session of [id] has been marked paid. *)
Definition paid_in (id : JsVal) (st : State) : Prop :=
  exists s : DemoSession, map_get id (demoSessions st) = Some s /\ paid s = true.

(** *** Histories: the calls of one process, one at a time *)

Record Call : Type := {
  tool : string;
  arguments : JsVal;
  world : World
}.

Definition step (pe : ProcessEnv) (st : State) (c : Call) : Outcome :=
  invoke pe (world c) (tool c) (arguments c) st.

Fixpoint run (pe : ProcessEnv) (st : State) (calls : list Call) : list (Call * Outcome) :=
  match calls with
  | [] => []
  | c :: rest =>
      let o := step pe st c in
      (c, o) :: run pe (after o) rest
  end.

(** The [paymentStatus] field of a reply. *)
Definition payment_status (o : Outcome) : option JsVal :=
  json_field (text (reply o)) "paymentStatus".

(** The call is a start to which the demo endpoint hands out [id] again, so
    that a fresh, unpaid session replaces the one stored under [id]. *)
Definition reissues (pe : ProcessEnv) (id : JsVal) (c : Call) : Prop :=
  tool c = "liveauth_mcp_start"
  /\ exists (r : Response) (result : JsVal),
       fetch_outcome (world c) (start_request pe (arguments c)) = Responded r
       /\ json_body r = Some result
       /\ same_value_zero id (start_sessionId result) = true.

(** The state in which a history leaves the process. *)
Fixpoint run_state (pe : ProcessEnv) (st : State) (calls : list Call) : State :=
  match calls with
  | [] => st
  | c :: rest => run_state pe (after (step pe st c)) rest
  end.

(** The fields that the source declares for the responses of the remote
    service: [McpConfirmResponse] (without its two optional fields),
    [McpStatusResponse] and [McpUsageResponse]. *)
Definition McpConfirmResponse : list string :=
  ["jwt"; "expiresIn"; "remainingBudgetSats"].

Definition McpStatusResponse : list string :=
  ["quoteId"; "status"; "paymentStatus"; "expiresAt"].

Definition McpUsageResponse : list string :=
  ["status"; "callsUsed"; "satsUsed"; "maxSatsPerDay"; "remainingBudgetSats";
   "maxCallsPerMinute"; "expiresAt"; "dayWindowStart"].

(** The credential that the answer to a confirm request makes the handler
    cache: the [jwt] of a 2xx response that does not report a pending
    payment, when it is truthy. *)
Definition confirm_credential (out : FetchOutcome) : option JsVal :=
  match out with
  | Rejected _ => None
  | Responded r =>
      if ok r then
        match json_body r with
        | None => None
        | Some result =>
            if nullish result then None
            else if is_str "pending" (prop result "paymentStatus") then None
            else if truthy (prop result "jwt") then Some (prop result "jwt")
            else None
        end
      else None
  end.

(** The tools that assign [cachedJwt], and the two that present it. *)
Definition caching (name : string) : Prop :=
  name = "liveauth_mcp_confirm" \/ name = "liveauth_mcp_refresh".

Definition metering (name : string) : Prop :=
  name = "liveauth_mcp_charge" \/ name = "liveauth_mcp_usage".

(** The word with which each tool starts the message of a response that is
    not 2xx and has no description: the literal of its [throw]. *)
Definition failure_label (name : string) : string :=
  if String.eqb name "liveauth_mcp_start" then "Start"
  else if String.eqb name "liveauth_mcp_confirm" then "Confirm"
  else if String.eqb name "liveauth_mcp_charge" then "Charge"
  else if String.eqb name "liveauth_mcp_usage" then "Usage query"
  else if String.eqb name "liveauth_mcp_status" then "Status check"
  else if String.eqb name "liveauth_mcp_lnurl" then "Lnurl fetch"
  else if String.eqb name "liveauth_mcp_refresh" then "Refresh"
  else "".

(** The tools whose requests are built with [getAuthHeaders]. *)
Definition keyed_tools : list string :=
  ["liveauth_mcp_start"; "liveauth_mcp_confirm"; "liveauth_mcp_status";
   "liveauth_mcp_lnurl"].

(** The line that confirm writes to the error stream. *)
Definition refresh_token_line (w : World) (result : JsVal) : string :=
  "Refresh token: " +:+ to_str w (prop result "refreshToken")
    +:+ " (save this to refresh without re-auth)".

End Bridge.

(** ** The first revision of the server (src/index.ts)

    It has no session map and no optional fields: confirm sends one object
    literal built from all seven arguments. *)

Module IndexV1.
Import Js.

Definition confirm_body (args : JsVal) : list (string * JsVal) :=
  [("quoteId", prop args "quoteId");
   ("challengeHex", prop args "challengeHex");
   ("nonce", prop args "nonce");
   ("hashHex", prop args "hashHex");
   ("expiresAtUnix", prop args "expiresAtUnix");
   ("difficultyBits", prop args "difficultyBits");
   ("sig", prop args "signature")].

Definition confirm_payload (args : JsVal) : Text :=
  JSON_stringify (VObj (confirm_body args)).

(** The whole request handler of that revision.  It declares [cachedJwt]
    and reads it in charge and usage, and has four tools. *)

Import Bridge.
Local Open Scope js_scope.

Section Handlers.

Variable pe : ProcessEnv.
Variable w : World.

Definition json_headers : list (string * string) :=
  [("Content-Type", "application/json")].

Definition start_request (args : JsVal) : HttpRequest :=
  {| url := LIVEAUTH_API_BASE pe +:+ "/api/mcp/start";
     method := "POST";
     headers := json_headers;
     body := Some (JSON_stringify
                     (VObj [("forceLightning",
                             js_coalesce (prop args "forceLightning") (VBool false))])) |}.

Definition handle_start (args : JsVal) : M Envelope :=
  destructure args "forceLightning" ;;;
  response <- fetch w (start_request args) ;;
  check_ok w "Start" response ;;;
  result <- response_json w response ;;
  ret (text_result (JSON_stringify result)).

Definition confirm_request (args : JsVal) : HttpRequest :=
  {| url := LIVEAUTH_API_BASE pe +:+ "/api/mcp/confirm";
     method := "POST";
     headers := json_headers;
     body := Some (confirm_payload args) |}.

Definition handle_confirm (args : JsVal) : M Envelope :=
  destructure args "quoteId" ;;;
  response <- fetch w (confirm_request args) ;;
  check_ok w "Confirm" response ;;;
  result <- response_json w response ;;
  ret (text_result (JSON_stringify result)).

Definition handle_charge (args : JsVal) : M Envelope :=
  destructure args "callCostSats" ;;;
  jwt <- get_cachedJwt ;;
  convert_bearer jwt ;;;
  response <- fetch w (charge_request pe w jwt args) ;;
  check_ok w "Charge" response ;;;
  result <- response_json w response ;;
  status <- member result "status" ;;
  if is_str "deny" status then
    convert (prop result "callsUsed") ;;;
    convert (prop result "satsUsed") ;;;
    ret {| text := Lit (deny_text w result); isError := true |}
  else ret (text_result (JSON_stringify result)).

Definition handle_usage (args : JsVal) : M Envelope :=
  jwt <- get_cachedJwt ;;
  convert_bearer jwt ;;;
  response <- fetch w (usage_request pe w jwt) ;;
  check_ok w "Usage query" response ;;;
  result <- response_json w response ;;
  ret (text_result (JSON_stringify result)).

Definition dispatch (name : string) (args : JsVal) : M Envelope :=
  if String.eqb name "liveauth_mcp_start" then handle_start args
  else if String.eqb name "liveauth_mcp_confirm" then handle_confirm args
  else if String.eqb name "liveauth_mcp_charge" then handle_charge args
  else if String.eqb name "liveauth_mcp_usage" then handle_usage args
  else throw (mkError PlainError ("Unknown tool: " +:+ name)).

Definition invoke (name : string) (args : JsVal) (st : State) : Outcome :=
  match dispatch name args {| store := st; sent := []; logged := [] |} with
  | (Normal r, s) =>
      {| reply := r; after := store s; requests := sent s; stderr := logged s |}
  | (Thrown e, s) =>
      {| reply := error_envelope e; after := store s; requests := sent s;
         stderr := logged s |}
  end.

End Handlers.

Fixpoint run (pe : ProcessEnv) (st : State) (calls : list Call) : list (Call * Outcome) :=
  match calls with
  | [] => []
  | c :: rest =>
      let o := invoke pe (world c) (tool c) (arguments c) st in
      (c, o) :: run pe (after o) rest
  end.

End IndexV1.

(** ** Sample configurations, worlds and argument bags *)

Module Samples.
Import Js Bridge.

(** A process started with an API key, and one started without. *)
Definition live : ProcessEnv :=
  {| env_LIVEAUTH_API_BASE := None;
     env_LIVEAUTH_API_KEY := Some "la_pk_test";
     env_LIVEAUTH_DEMO := None |}.

Definition demo : ProcessEnv :=
  {| env_LIVEAUTH_API_BASE := None;
     env_LIVEAUTH_API_KEY := None;
     env_LIVEAUTH_DEMO := None |}.

(** A world whose clock shows [t] and whose network is [net]. *)
Definition world_at (t : Z) (net : HttpRequest -> FetchOutcome) : World :=
  {| Date_now := fun _ => t;
     Math_random_36 := "k3x9q0v7a";
     toISOString := fun _ => "1970-01-01T00:05:02.000Z";
     Number_toString := fun _ => "1e+21";
     json_rejection := fun _ => mkError SyntaxError "Unexpected token < in JSON at position 0";
     fetch_outcome := net |}.

(** The remote service answers 200 with the given body. *)
Definition answers (v : JsVal) : HttpRequest -> FetchOutcome :=
  fun _ => Responded {| ok := true; statusText := "OK"; json_body := Some v |}.

(** The remote service answers with an error status. *)
Definition refuses (status : string) (v : JsVal) : HttpRequest -> FetchOutcome :=
  fun _ => Responded {| ok := false; statusText := status; json_body := Some v |}.

(** A confirm call that echoes a challenge. *)
Definition pow_args (difficultyBits signature : JsVal) : JsVal :=
  VObj [("quoteId", VStr "q_1");
        ("challengeHex", VStr "a1b2c3d4");
        ("nonce", VNum 42);
        ("hashHex", VStr "0000beef");
        ("expiresAtUnix", VNum 1234567890);
        ("difficultyBits", difficultyBits);
        ("signature", signature)].

Definition quote_args (id : string) : JsVal := VObj [("quoteId", VStr id)].

(** A demo session created at time [t]. *)
Definition session (id : string) (t : Z) (is_paid : bool) : DemoSession :=
  {| quoteId := VStr id; invoice := VStr "lnbc10n1demo"; amountSats := VNum 10;
     paymentHash := VStr "9f3c"; paid := is_paid; createdAt := t |}.

Definition with_session (id : string) (t : Z) (is_paid : bool) : State :=
  {| cachedJwt := VNull; demoSessions := [(VStr id, session id t is_paid)] |}.

Definition call (name : string) (args : JsVal) (w : World) : Call :=
  {| tool := name; arguments := args; world := w |}.

End Samples.

(** * Properties *)

Import Js Bridge.

(** ** Proof steps that recur *)

(** Unfolds a handler down to the state-passing function it denotes. *)
Ltac unfold_handlers :=
  unfold handle_start, handle_confirm, handle_charge, handle_usage,
    handle_status, handle_lnurl, handle_refresh in *.

Ltac unfold_monad :=
  unfold check_ok, convert_bearer, convert, response_json, member, destructure,
    has_member, get_cachedJwt, set_cachedJwt, get_demoSessions, set_demoSessions,
    console_error, fetch, text_result, bind, ret, throw in *.

(** Follows every branch of the unfolded handler. *)
Ltac all_paths := repeat (case_match; simplify_eq/=).

Ltac run_tool := unfold invoke, dispatch; simpl; unfold_handlers; unfold_monad.

(** Decides the innermost test that the goal still branches on. *)
Ltac leaf_case :=
  match goal with
  | |- context [match ?x with _ => _ end] =>
      lazymatch x with
      | context [match _ with _ => _ end] => fail
      | _ => destruct x eqn:?
      end
  end.

Ltac step_paths :=
  cbn beta iota zeta delta [store sent logged cachedJwt demoSessions fst snd];
  repeat (leaf_case; simplify_eq;
          cbn beta iota zeta delta [store sent logged cachedJwt demoSessions fst snd]).

(** Follows every branch of every tool. *)
Ltac every_tool name :=
  unfold invoke, dispatch;
  repeat match goal with
         | |- context [String.eqb name ?lit] => destruct (String.eqb name lit) eqn:?
         end;
  unfold_handlers; unfold_monad; step_paths.


(** ** Two runs, end to end *)

(** The demo scenario: start, an immediate status, confirm, usage.  For each
    call: the payment status of the reply, its remaining budget, and the
    number of requests that left the process. *)
Example demo_scenario :
  let q := Samples.quote_args "q_1" in
  let issued :=
    VObj [("sessionId", VStr "q_1");
          ("invoice", VObj [("bolt11", VStr "lnbc10n1demo"); ("amountSats", VNum 10);
                            ("paymentHash", VStr "9f3c")])] in
  let at_time t := Samples.world_at t (Samples.answers issued) in
  map (fun co : Call * Outcome =>
         (isError (reply (snd co)), payment_status (snd co),
          json_field (text (reply (snd co))) "remainingBudgetSats",
          length (requests (snd co))))
      (run Samples.demo initial
         [Samples.call "liveauth_mcp_start" (VObj []) (at_time 1000);
          Samples.call "liveauth_mcp_status" q (at_time 1500);
          Samples.call "liveauth_mcp_confirm" q (at_time 1600);
          Samples.call "liveauth_mcp_usage" (VObj []) (at_time 1700)])
  = [(false, None, None, 1%nat);
     (false, Some (VStr "pending"), None, 0%nat);
     (false, Some (VStr "paid"), Some (VNum 1000), 0%nat);
     (false, None, Some (VNum 1000), 0%nat)].
Proof. reflexivity. Qed.

(** A charge that the remote service refuses: the description it gives is
    the message of the error result, and nothing is cached. *)
Example refused_charge :
  let w := Samples.world_at 0
             (Samples.refuses "Unauthorized"
                (VObj [("error", VStr "invalid_token");
                       ("error_description", VStr "Token expired")])) in
  let o := invoke Samples.live w "liveauth_mcp_charge" (VObj [("callCostSats", VNum 3)])
             initial in
  reply o = {| text := Lit "Error: Token expired"; isError := true |}
  /\ after o = initial
  /\ map url (requests o) = ["https://api.liveauth.app/api/mcp/charge"].
Proof. repeat split. Qed.

(** ** JavaScript values *)

Lemma same_value_zero_eq (a b : JsVal) : same_value_zero a b = true -> a = b.
Proof.
  destruct a, b; simpl; try discriminate; try reflexivity.
  - intros H. apply Bool.eqb_prop in H. congruence.
  - intros H. apply Z.eqb_eq in H. congruence.
  - intros H. apply String.eqb_eq in H. congruence.
Qed.

Lemma truthy_not_undef (v : JsVal) : truthy v = true -> is_undef v = false.
Proof. destruct v; simpl; congruence. Qed.

Lemma truthy_not_nullish (v : JsVal) : truthy v = true -> nullish v = false.
Proof. destruct v; simpl; congruence. Qed.

Lemma truthy_not_null (v : JsVal) : truthy v = true -> v <> VNull.
Proof. destruct v; simpl; congruence. Qed.

Lemma assoc_set_prop (k k' : string) (v : JsVal) (ps : list (string * JsVal)) :
  assoc k (set_prop k' v ps) = if String.eqb k k' then Some v else assoc k ps.
Proof.
  induction ps as [|[k0 v0] ps IH]; simpl.
  - reflexivity.
  - destruct (String.eqb k' k0) eqn:E; simpl.
    + apply String.eqb_eq in E. subst k0.
      destruct (String.eqb k k'); reflexivity.
    + rewrite IH. destruct (String.eqb k k0) eqn:E0; [|reflexivity].
      apply String.eqb_eq in E0. subst k0.
      rewrite String.eqb_sym in E. rewrite E. reflexivity.
Qed.

Lemma json_norm_obj (ps : list (string * JsVal)) :
  json_norm (VObj ps) = VObj (norm_props ps).
Proof.
  simpl. f_equal.
  induction ps as [|[k x] r IH]; simpl; [reflexivity|].
  rewrite IH. destruct x; reflexivity.
Qed.

(** Serialisation loses nothing of a value that JSON can carry. *)
Lemma json_norm_id : forall v : JsVal, is_json v = true -> json_norm v = v.
Proof.
  fix IH 1. intros [| | | | |ps|xs] H; try reflexivity.
  - simpl in *. f_equal.
    induction ps as [|[k x] r IHr]; [reflexivity|].
    apply andb_prop in H. destruct H as [Hx Hr].
    rewrite (IHr Hr). pose proof (IH x Hx) as Ex.
    destruct x; try (rewrite Ex); try reflexivity.
    simpl in Hx. discriminate.
  - simpl in *. f_equal.
    induction xs as [|x r IHr]; [reflexivity|].
    apply andb_prop in H. destruct H as [Hx Hr].
    rewrite (IHr Hr). pose proof (IH x Hx) as Ex.
    destruct x; try (rewrite Ex); try reflexivity.
    simpl in Hx. discriminate.
Qed.



Lemma includes_intro (pre sub post : string) : includes (pre +:+ sub +:+ post) sub.
Proof. exists pre, post. reflexivity. Qed.

(** ** One invocation, path by path *)

(** *** The confirm payload *)

Lemma confirm_body_wire (args : JsVal) :
  norm_props (confirm_body args) = confirm_wire args.
Proof.
  unfold confirm_body, confirm_wire.
  destruct (truthy (prop args "challengeHex")) eqn:Hc,
           (is_undef (prop args "nonce")) eqn:Hn,
           (truthy (prop args "hashHex")) eqn:Hh,
           (truthy (prop args "expiresAtUnix")) eqn:He,
           (truthy (prop args "difficultyBits")) eqn:Hd,
           (truthy (prop args "signature")) eqn:Hs;
    cbn -[json_norm prop];
    repeat match goal with
           | H : truthy ?v = true |- _ => apply truthy_not_undef in H; rewrite H
           end;
    rewrite ?Hn; destruct (is_undef (prop args "quoteId")); reflexivity.
Qed.

Lemma confirm_request_body (pe : ProcessEnv) (args : JsVal) :
  body (confirm_request pe args) = Some (JsonText (VObj (confirm_wire args))).
Proof.
  unfold confirm_request, JSON_stringify. cbn [body].
  rewrite json_norm_obj, confirm_body_wire. reflexivity.
Qed.









Lemma confirm_request_field (pe : ProcessEnv) (args : JsVal) (k : string) :
  wire_field (confirm_request pe args) k = assoc k (confirm_wire args).
Proof. unfold wire_field. rewrite confirm_request_body. reflexivity. Qed.




(** ** The signature on the wire *)




(** ** The optional fields of confirm *)




(** ** The dispatcher never raises *)

Lemma append_assoc (a b c : string) : (a +:+ b) +:+ c = a +:+ b +:+ c.
Proof.
  induction a as [|ch a IH]; [reflexivity|].
  change (String ch ((a +:+ b) +:+ c) = String ch (a +:+ b +:+ c)).
  f_equal. exact IH.
Qed.

(** A name outside [TOOLS] fails every test of the [switch]. *)
Lemma unknown_tool_dispatch (pe : ProcessEnv) (w : World) (name : string) (args : JsVal) :
  ~ In name TOOLS ->
  dispatch pe w name args = throw (mkError PlainError ("Unknown tool: " +:+ name)).
Proof.
  intros Hn. unfold dispatch.
  repeat match goal with
         | |- context [String.eqb name ?lit] =>
             destruct (String.eqb name lit) eqn:E;
             [apply String.eqb_eq in E; exfalso; apply Hn; subst name; simpl; tauto|];
             clear E
         end.
  reflexivity.
Qed.

(** Whatever the tool, a call whose request met a network failure or a
    response that is not 2xx is answered with the error flag. *)
Lemma remote_failure_is_error
  (pe : ProcessEnv) (w : World) (name : string) (args : JsVal) (st : State)
  (req : HttpRequest) :
  In req (requests (invoke pe w name args st)) ->
  (forall r : Response, fetch_outcome w req = Responded r -> ok r = false) ->
  isError (reply (invoke pe w name args st)) = true.
Proof.
  unfold invoke, dispatch.
  repeat match goal with
         | |- context [String.eqb name ?lit] => destruct (String.eqb name lit)
         end;
    unfold_handlers; unfold_monad; all_paths; intros Hin Hfail;
    try reflexivity; simpl in Hin; try (destruct Hin; fail);
    destruct Hin as [<-|[]];
    match goal with
    | H : fetch_outcome _ _ = Responded _ |- _ => apply Hfail in H; congruence
    end.
Qed.

(** C5.  [invoke] always returns an envelope.  When the handler body throws,
    whatever the error, the envelope carries the error flag and the text
    ["Error: "] followed by the message, and the process goes on from the
    state the handler left; when it returns, the envelope is the one it
    returned.  A request that met a network failure or a response that is
    not 2xx always ends in the error flag.  A name that is not a tool gives
    the error flag and a message that names it, without any request and
    without any change of state. *)
Theorem invoke_never_raises
  (pe : ProcessEnv) (w : World) (name : string) (args : JsVal) (st : State) :
  let o := invoke pe w name args st in
  let switch := dispatch pe w name args {| store := st; sent := []; logged := [] |} in
  (forall (e : JsError) (s : Sys),
      switch = (Thrown e, s) ->
      reply o = {| text := Lit ("Error: " +:+ message e); isError := true |}
      /\ after o = store s)
  /\ (forall (r : Envelope) (s : Sys),
        switch = (Normal r, s) -> reply o = r /\ after o = store s)
  /\ (forall req : HttpRequest,
        In req (requests o) ->
        (forall r : Response, fetch_outcome w req = Responded r -> ok r = false) ->
        isError (reply o) = true)
  /\ (~ In name TOOLS ->
      reply o = {| text := Lit ("Error: Unknown tool: " +:+ name); isError := true |}
      /\ includes ("Error: Unknown tool: " +:+ name) name
      /\ after o = st
      /\ requests o = []).
Proof.
  intros o switch. split; [|split; [|split]].
  - intros e s H. subst o switch. unfold invoke. rewrite H. split; reflexivity.
  - intros r s H. subst o switch. unfold invoke. rewrite H. split; reflexivity.
  - intros req Hin Hfail. eapply remote_failure_is_error; eassumption.
  - intros Hn. subst o switch. unfold invoke.
    rewrite (unknown_tool_dispatch pe w name args Hn). unfold throw. simpl.
    repeat split.
    exists "Error: Unknown tool: ", "".
    rewrite <- append_assoc.
    clear. induction ("Error: Unknown tool: " +:+ name) as [|c s IH];
      [reflexivity|].
    change (String c s = String c (s +:+ "")). f_equal. exact IH.
Qed.

Lemma invoke_never_raises_witness :
  let o := invoke Samples.live (Samples.world_at 0 (Samples.answers VNull))
             "liveauth_mcp_logout" VUndef initial in
  ~ In "liveauth_mcp_logout" TOOLS
  /\ reply o = {| text := Lit "Error: Unknown tool: liveauth_mcp_logout"; isError := true |}
  /\ after o = initial.
Proof.
  intros o.
  assert (Hn : ~ In "liveauth_mcp_logout" TOOLS).
  { simpl. intros H. repeat (destruct H as [H|H]; [discriminate H|]). exact H. }
  destruct (invoke_never_raises Samples.live (Samples.world_at 0 (Samples.answers VNull))
              "liveauth_mcp_logout" VUndef initial) as (_ & _ & _ & Hu).
  destruct (Hu Hn) as (Hr & _ & Ha & _).
  split; [exact Hn|]. split; [exact Hr | exact Ha].
Defined.

(** ** A denied charge *)

(** A safe integer is printed in decimal. *)
Lemma to_str_safe_integer (w : World) (n : Z) :
  Z.abs n <= 9007199254740992 -> to_str w (VNum n) = pretty n.
Proof.
  intros H. unfold to_str. simpl.
  destruct (Z.abs n <=? 9007199254740992) eqn:E; [reflexivity|].
  apply Z.leb_gt in E. lia.
Qed.

(** The request of a charge call, when one is sent: the handler was given
    an argument bag and the cached JWT, if there is one, went into the
    header. *)
Lemma charge_request_sent
  (pe : ProcessEnv) (w : World) (args : JsVal) (st : State) (req : HttpRequest) :
  In req (requests (invoke pe w "liveauth_mcp_charge" args st)) ->
  req = charge_request pe w (cachedJwt st) args
  /\ nullish args = false
  /\ (truthy (cachedJwt st) = true -> converts (cachedJwt st) = true).
Proof.
  run_tool. step_paths; simpl; intros Hin; try (destruct Hin; fail);
    destruct Hin as [<-|[]]; repeat split; congruence.
Qed.

(** Charge, given an argument bag, sends its one request, unless the cached
    JWT cannot be written into the header. *)
Lemma charge_sends
  (pe : ProcessEnv) (w : World) (args : JsVal) (st : State) :
  nullish args = false ->
  (truthy (cachedJwt st) = true -> converts (cachedJwt st) = true) ->
  requests (invoke pe w "liveauth_mcp_charge" args st)
  = [charge_request pe w (cachedJwt st) args].
Proof.
  intros Ha Hc. run_tool. rewrite Ha. destruct st as [jwt sessions]. simpl in *.
  destruct (truthy jwt); [rewrite (Hc eq_refl)|];
    step_paths; reflexivity.
Qed.

(** Usage, outside demo mode, does the same. *)
Lemma usage_sends
  (pe : ProcessEnv) (w : World) (args : JsVal) (st : State) :
  LIVEAUTH_DEMO pe = false ->
  (truthy (cachedJwt st) = true -> converts (cachedJwt st) = true) ->
  requests (invoke pe w "liveauth_mcp_usage" args st)
  = [usage_request pe w (cachedJwt st)].
Proof.
  intros Hd Hc. run_tool. rewrite Hd. destruct st as [jwt sessions]. simpl in *.
  destruct (truthy jwt); [rewrite (Hc eq_refl)|];
    step_paths; reflexivity.
Qed.

(** The whole outcome of a charge that is denied. *)
Lemma charge_deny_outcome
  (pe : ProcessEnv) (w : World) (args : JsVal) (st : State)
  (r : Response) (result : JsVal) :
  nullish args = false ->
  (truthy (cachedJwt st) = true -> converts (cachedJwt st) = true) ->
  fetch_outcome w (charge_request pe w (cachedJwt st) args) = Responded r ->
  ok r = true ->
  json_body r = Some result ->
  prop result "status" = VStr "deny" ->
  invoke pe w "liveauth_mcp_charge" args st
  = {| reply :=
         if converts (prop result "callsUsed") && converts (prop result "satsUsed")
         then {| text := Lit (deny_text w result); isError := true |}
         else error_envelope (mkError TypeError "Cannot convert object to primitive value");
       after := st;
       requests := [charge_request pe w (cachedJwt st) args];
       stderr := [] |}.
Proof.
  intros Ha Hc Hf Hok Hb Hs.
  assert (Hr : nullish result = false) by (destruct result; simpl in *; congruence).
  run_tool. rewrite Ha. simpl.
  destruct st as [jwt sessions]. simpl in *.
  destruct (truthy jwt); [rewrite (Hc eq_refl)|];
    rewrite Hf, Hok, Hb, Hr, Hs; simpl;
    destruct (converts (prop result "callsUsed")),
             (converts (prop result "satsUsed")); reflexivity.
Qed.

(** C6, counterexample.  A charge answered by a 2xx response that says
    [deny], with 340 as its sats-used count and an object that has a
    [toString] field of its own as its calls-used count: building the
    message throws, the [catch] block answers, and the text is that of a
    failed call, without the number 340. *)
Lemma deny_message_not_built :
  let result := VObj [("status", VStr "deny");
                      ("callsUsed", VObj [("toString", VNum 1)]);
                      ("satsUsed", VNum 340)] in
  let r := {| ok := true; statusText := "OK"; json_body := Some result |} in
  let w := Samples.world_at 0 (fun _ => Responded r) in
  let o := invoke Samples.live w "liveauth_mcp_charge" (VObj [("callCostSats", VNum 3)])
             initial in
  length (requests o) = 1%nat
  /\ reply o = {| text := Lit "Error: Cannot convert object to primitive value";
                  isError := true |}
  /\ includesb "Error: Cannot convert object to primitive value" "340" = false
  /\ prefixb "Error: " "Error: Cannot convert object to primitive value" = true.
Proof. repeat split. Qed.

(** C6, as amended.  When the request of a charge call is answered by a 2xx
    response whose body has [status: 'deny'], the result carries the error
    flag and the state is left as it was.  When the calls-used and
    sats-used values of the response convert to strings, as numbers do, the
    text is the budget message, which includes both values as printed, and
    is not the ["Error: ..."] text of a failed call; two safe integers are
    printed in decimal.  When one of the two does not convert, the text is
    that of the conversion error. *)
Theorem charge_deny_is_flagged
  (pe : ProcessEnv) (w : World) (args : JsVal) (st : State)
  (req : HttpRequest) (r : Response) (result : JsVal) :
  In req (requests (invoke pe w "liveauth_mcp_charge" args st)) ->
  fetch_outcome w req = Responded r ->
  ok r = true ->
  json_body r = Some result ->
  prop result "status" = VStr "deny" ->
  let o := invoke pe w "liveauth_mcp_charge" args st in
  let calls := prop result "callsUsed" in
  let sats := prop result "satsUsed" in
  isError (reply o) = true
  /\ after o = st
  /\ (converts calls && converts sats = true ->
      text (reply o) = Lit (deny_text w result)
      /\ includes (deny_text w result) (to_str w calls)
      /\ includes (deny_text w result) (to_str w sats)
      /\ starts_with (deny_text w result) "Budget exceeded!"
      /\ ~ starts_with (deny_text w result) "Error: ")
  /\ (forall n m : Z,
        calls = VNum n -> sats = VNum m ->
        Z.abs n <= 9007199254740992 -> Z.abs m <= 9007199254740992 ->
        text (reply o)
        = Lit ("Budget exceeded! Calls used: " +:+ pretty n +:+ ", Sats used: "
                 +:+ pretty m +:+ ". Stop making API calls."))
  /\ (converts calls && converts sats = false ->
      text (reply o) = Lit "Error: Cannot convert object to primitive value").
Proof.
  intros Hin Hf Hok Hb Hs o calls sats.
  destruct (charge_request_sent pe w args st req Hin) as (-> & Ha & Hc).
  subst o. rewrite (charge_deny_outcome pe w args st r result Ha Hc Hf Hok Hb Hs).
  fold calls sats. cbn [reply after].
  split; [destruct (converts calls && converts sats); reflexivity|].
  split; [reflexivity|].
  split; [|split].
  - intros ->. cbn [text]. split; [reflexivity|].
    unfold deny_text. fold calls sats. repeat split.
    + apply includes_intro.
    + exists ("Budget exceeded! Calls used: " +:+ to_str w calls +:+ ", Sats used: "),
        ". Stop making API calls.".
      rewrite !append_assoc. reflexivity.
    + eexists. reflexivity.
    + intros [post H]. discriminate H.
  - intros n m Hn Hm Hsn Hsm. rewrite Hn, Hm. cbn [converts andb text].
    unfold deny_text. fold calls sats. rewrite Hn, Hm.
    rewrite (to_str_safe_integer w n Hsn), (to_str_safe_integer w m Hsm). reflexivity.
  - intros ->. reflexivity.
Qed.

Lemma charge_deny_is_flagged_witness :
  let result := VObj [("status", VStr "deny"); ("callsUsed", VNum 12); ("satsUsed", VNum 340)] in
  let r := {| ok := true; statusText := "OK"; json_body := Some result |} in
  let w := Samples.world_at 0 (fun _ => Responded r) in
  let args := VObj [("callCostSats", VNum 3)] in
  let o := invoke Samples.live w "liveauth_mcp_charge" args initial in
  In (charge_request Samples.live w VNull args) (requests o)
  /\ isError (reply o) = true
  /\ text (reply o)
     = Lit "Budget exceeded! Calls used: 12, Sats used: 340. Stop making API calls.".
Proof.
  intros result r w args o.
  assert (Hin : In (charge_request Samples.live w VNull args) (requests o))
    by (left; reflexivity).
  destruct (charge_deny_is_flagged Samples.live w args initial
              (charge_request Samples.live w VNull args) r result
              Hin eq_refl eq_refl eq_refl eq_refl) as (He & _ & _ & Ht & _).
  split; [exact Hin|]. split; [exact He|].
  apply (Ht 12 340); [reflexivity | reflexivity | simpl; lia | simpl; lia].
Defined.

(** ** The session map *)

Lemma map_get_update (k k' : JsVal) (f : DemoSession -> DemoSession) (m : SessionMap) :
  map_get k' (map_update k f m)
  = if same_value_zero k' k then option_map f (map_get k' m) else map_get k' m.
Proof.
  induction m as [|[k0 s0] m IH]; simpl.
  - destruct (same_value_zero k' k); reflexivity.
  - destruct (same_value_zero k k0) eqn:E; simpl.
    + apply same_value_zero_eq in E. subst k0.
      destruct (same_value_zero k' k); reflexivity.
    + rewrite IH.
      destruct (same_value_zero k' k0) eqn:E0; [|reflexivity].
      destruct (same_value_zero k' k) eqn:E1; [|reflexivity].
      apply same_value_zero_eq in E1. subst k'. congruence.
Qed.

Lemma map_get_set (k k' : JsVal) (s : DemoSession) (m : SessionMap) :
  same_value_zero k' k = false ->
  map_get k' (map_set k s m) = map_get k' m.
Proof.
  intros Hne. induction m as [|[k0 s0] m IH]; simpl.
  - rewrite Hne. reflexivity.
  - destruct (same_value_zero k k0) eqn:E; simpl.
    + apply same_value_zero_eq in E. subst k0. rewrite Hne. reflexivity.
    + rewrite IH. reflexivity.
Qed.

Lemma map_has_get (k : JsVal) (m : SessionMap) :
  map_has k m = true -> exists s : DemoSession, map_get k m = Some s.
Proof. unfold map_has. destruct (map_get k m); [eauto|discriminate]. Qed.

Lemma same_value_zero_refl_of_key (k : JsVal) (m : SessionMap) (s : DemoSession) :
  map_get k m = Some s -> same_value_zero k k = true.
Proof.
  induction m as [|[k0 s0] m IH]; simpl; [discriminate|].
  destruct (same_value_zero k k0) eqn:E; [|exact IH].
  intros _. pose proof (same_value_zero_eq _ _ E). subst k0. exact E.
Qed.

(** ** Demo mode: confirm *)

Lemma confirm_demo_outcome
  (pe : ProcessEnv) (w : World) (args : JsVal) (st : State) :
  LIVEAUTH_DEMO pe = true ->
  nullish args = false ->
  map_has (prop args "quoteId") (demoSessions st) = true ->
  invoke pe w "liveauth_mcp_confirm" args st
  = {| reply := text_result (JSON_stringify (confirm_demo_reply w));
       after := {| cachedJwt := VStr (demoJwt w);
                   demoSessions :=
                     map_update (prop args "quoteId") mark_paid (demoSessions st) |};
       requests := [];
       stderr := [] |}.
Proof. intros Hd Ha Hh. run_tool. rewrite Ha, Hd. simpl. rewrite Hh. reflexivity. Qed.

Lemma confirm_demo_marks_paid
  (pe : ProcessEnv) (w : World) (args : JsVal) (st : State) :
  LIVEAUTH_DEMO pe = true ->
  nullish args = false ->
  map_has (prop args "quoteId") (demoSessions st) = true ->
  paid_in (prop args "quoteId") (after (invoke pe w "liveauth_mcp_confirm" args st)).
Proof.
  intros Hd Ha Hh. rewrite (confirm_demo_outcome pe w args st Hd Ha Hh).
  destruct (map_has_get _ _ Hh) as [s Hs]. exists (mark_paid s). split; [|reflexivity].
  simpl. rewrite map_get_update, Hs.
  rewrite (same_value_zero_refl_of_key _ _ _ Hs). reflexivity.
Qed.

(** C3.  In demo mode, a confirm call for an id that has a demo session is
    answered without the error flag by a reply whose [jwt] is a string that
    starts with ["demo_jwt_"], never [null], with the fixed budget and
    expiry; the session is marked paid and the token cached; this for every
    state and every clock, so whatever the time since the session was
    created and whether or not status was ever called. *)
Theorem demo_confirm_mints_token
  (pe : ProcessEnv) (w : World) (args : JsVal) (st : State) :
  LIVEAUTH_DEMO pe = true ->
  nullish args = false ->
  map_has (prop args "quoteId") (demoSessions st) = true ->
  let o := invoke pe w "liveauth_mcp_confirm" args st in
  isError (reply o) = false
  /\ json_field (text (reply o)) "jwt" = Some (VStr (demoJwt w))
  /\ VStr (demoJwt w) <> VNull
  /\ truthy (VStr (demoJwt w)) = true
  /\ starts_with (demoJwt w) "demo_jwt_"
  /\ json_field (text (reply o)) "expiresIn" = Some (VNum 3600)
  /\ json_field (text (reply o)) "remainingBudgetSats" = Some (VNum 1000)
  /\ json_field (text (reply o)) "paymentStatus" = Some (VStr "paid")
  /\ paid_in (prop args "quoteId") (after o)
  /\ cachedJwt (after o) = VStr (demoJwt w)
  /\ requests o = [].
Proof.
  intros Hd Ha Hh o.
  pose proof (confirm_demo_marks_paid pe w args st Hd Ha Hh) as Hpaid.
  fold o in Hpaid. revert Hpaid. subst o.
  rewrite (confirm_demo_outcome pe w args st Hd Ha Hh). simpl. intros Hpaid.
  repeat split; try reflexivity; try discriminate; try exact Hpaid.
  eexists. reflexivity.
Qed.

Lemma demo_confirm_mints_token_witness :
  let w := Samples.world_at 500 (Samples.answers VNull) in
  let o := invoke Samples.demo w "liveauth_mcp_confirm" (Samples.quote_args "q_1")
             (Samples.with_session "q_1" 0 false) in
  LIVEAUTH_DEMO Samples.demo = true
  /\ json_field (text (reply o)) "jwt" = Some (VStr "demo_jwt_500_k3x9q0v7a")
  /\ paid_in (VStr "q_1") (after o).
Proof.
  intros w o.
  destruct (demo_confirm_mints_token Samples.demo w (Samples.quote_args "q_1")
              (Samples.with_session "q_1" 0 false) eq_refl eq_refl eq_refl)
    as (_ & Hj & _ & _ & _ & _ & _ & _ & Hp & _).
  split; [reflexivity|]. split; [exact Hj | exact Hp].
Defined.

(** ** Demo mode and the network *)

(** C4, counterexample.  A process without an API key is in demo mode, and
    its start tool sends a POST to the demo endpoint of the remote service.
    Its usage tool answers from the process alone, with a reply that has
    neither the [expiresAt] nor the [dayWindowStart] field of the usage
    response of the remote service. *)
Lemma demo_start_calls_out :
  let w := Samples.world_at 0
             (Samples.answers (VObj [("sessionId", VStr "q_1"); ("invoice", VStr "lnbc10n1demo")])) in
  let usage := invoke Samples.demo w "liveauth_mcp_usage" (VObj []) initial in
  LIVEAUTH_DEMO Samples.demo = true
  /\ requests (invoke Samples.demo w "liveauth_mcp_start" (VObj []) initial)
     = [{| url := "https://api.liveauth.app/api/public/demo/start";
           method := "POST";
           headers := [("Content-Type", "application/json")];
           body := Some (JsonText (VObj [("forceLightning", VBool false)])) |}]
  /\ requests usage = []
  /\ In "expiresAt" McpUsageResponse
  /\ json_field (text (reply usage)) "expiresAt" = None
  /\ In "dayWindowStart" McpUsageResponse
  /\ json_field (text (reply usage)) "dayWindowStart" = None.
Proof. simpl. tauto. Qed.

Lemma status_demo_outcome
  (pe : ProcessEnv) (w : World) (args : JsVal) (st : State) (s : DemoSession) :
  LIVEAUTH_DEMO pe = true ->
  nullish args = false ->
  map_get (prop args "quoteId") (demoSessions st) = Some s ->
  invoke pe w "liveauth_mcp_status" args st
  = {| reply := text_result
                  (JSON_stringify (status_demo_reply w (status_now w s) (status_poll w s)));
       after := {| cachedJwt := cachedJwt st;
                   demoSessions :=
                     map_update (prop args "quoteId") (status_poll w) (demoSessions st) |};
       requests := [];
       stderr := [] |}.
Proof. intros Hd Ha Hs. run_tool. rewrite Ha, Hd. simpl. rewrite Hs. reflexivity. Qed.

(** The fields of the local status reply. *)
Lemma status_demo_reply_keys (w : World) (now : Z) (s : DemoSession) :
  json_keys (JSON_stringify (status_demo_reply w now s))
  = (if is_undef (quoteId s) then [] else ["quoteId"])
      ++ ["status"; "paymentStatus"; "expiresAt"; "_demo"; "_instructions"].
Proof.
  unfold JSON_stringify, status_demo_reply. rewrite json_norm_obj.
  cbn -[json_norm]. destruct (is_undef (quoteId s)); reflexivity.
Qed.

Lemma status_poll_quoteId (w : World) (s : DemoSession) :
  quoteId (status_poll w s) = quoteId s.
Proof.
  unfold status_poll.
  destruct (negb (paid s) && (2000 <? Date_now w 0 - createdAt s)); reflexivity.
Qed.

(** The requests of confirm and status when the demo engine does not
    answer. *)
Lemma confirm_forwarded
  (pe : ProcessEnv) (w : World) (args : JsVal) (st : State) :
  nullish args = false ->
  LIVEAUTH_DEMO pe && map_has (prop args "quoteId") (demoSessions st) = false ->
  requests (invoke pe w "liveauth_mcp_confirm" args st) = [confirm_request pe args].
Proof.
  intros Ha Hd. run_tool. rewrite Ha. destruct st as [jwt sessions]. simpl in *.
  rewrite Hd. step_paths; reflexivity.
Qed.

Lemma status_forwarded
  (pe : ProcessEnv) (w : World) (args : JsVal) (st : State) :
  nullish args = false ->
  (if LIVEAUTH_DEMO pe then map_get (prop args "quoteId") (demoSessions st) else None)
  = None ->
  let o := invoke pe w "liveauth_mcp_status" args st in
  requests o
  = (if converts (prop args "quoteId") then [status_request pe w args] else [])
  /\ (converts (prop args "quoteId") = false ->
      reply o = error_envelope (mkError TypeError "Cannot convert object to primitive value")
      /\ after o = st).
Proof.
  intros Ha Hd. run_tool. rewrite Ha. destruct st as [jwt sessions]. simpl in *.
  rewrite Hd. destruct (converts (prop args "quoteId")).
  - split; [step_paths; reflexivity | discriminate].
  - split; [reflexivity|]. intros _. split; reflexivity.
Qed.

Lemma start_sends
  (pe : ProcessEnv) (w : World) (args : JsVal) (st : State) :
  requests (invoke pe w "liveauth_mcp_start" args st)
  = (if nullish args then [] else [start_request pe args]).
Proof. run_tool. destruct (nullish args); [reflexivity|]. step_paths; reflexivity. Qed.

(** Without an argument bag, nothing is sent and nothing changes. *)
Lemma missing_bag
  (pe : ProcessEnv) (w : World) (name : string) (args : JsVal) (st : State) :
  In name ["liveauth_mcp_start"; "liveauth_mcp_confirm"; "liveauth_mcp_status"] ->
  nullish args = true ->
  let o := invoke pe w name args st in
  requests o = [] /\ isError (reply o) = true /\ after o = st.
Proof.
  intros Hin Ha. simpl in Hin.
  destruct Hin as [<-|[<-|[<-|[]]]]; run_tool; rewrite Ha; simpl; repeat split.
Qed.

(** C4, as amended.  In demo mode: usage is always answered from the
    process alone, with the fixed usage reply, which has the fields of the
    usage response of the remote service except [expiresAt] and
    [dayWindowStart].  Given an argument bag, confirm and status are
    answered from the process alone when a demo session exists for the id,
    with every required field of the confirm response and every field of
    the status response of the remote service ([quoteId] when the session
    has one); when no session exists, confirm is forwarded to the remote
    service, and so is status, unless the id does not convert to a string,
    in which case the call fails before any request.  Given an argument
    bag, start sends one request, to the demo start endpoint of the remote
    service.  Without an argument bag, start, confirm and status fail
    before any request. *)
Theorem demo_mode_outbound_calls
  (pe : ProcessEnv) (w : World) (args : JsVal) (st : State) :
  LIVEAUTH_DEMO pe = true ->
  let usage := invoke pe w "liveauth_mcp_usage" args st in
  let confirm := invoke pe w "liveauth_mcp_confirm" args st in
  let status := invoke pe w "liveauth_mcp_status" args st in
  let start := invoke pe w "liveauth_mcp_start" args st in
  (requests usage = []
   /\ after usage = st
   /\ reply usage = {| text := JsonText usage_demo_reply; isError := false |}
   /\ json_keys (JsonText usage_demo_reply)
      = ["status"; "callsUsed"; "satsUsed"; "maxSatsPerDay"; "remainingBudgetSats";
         "maxCallsPerMinute"; "_demo"]
   /\ (forall k : string,
          In k McpUsageResponse ->
          In k (json_keys (text (reply usage))) \/ k = "expiresAt" \/ k = "dayWindowStart")
   /\ ~ In "expiresAt" (json_keys (text (reply usage)))
   /\ ~ In "dayWindowStart" (json_keys (text (reply usage))))
  /\ (nullish args = false ->
      map_has (prop args "quoteId") (demoSessions st) = true ->
      requests confirm = []
      /\ requests status = []
      /\ isError (reply confirm) = false
      /\ isError (reply status) = false
      /\ json_keys (text (reply confirm))
         = ["jwt"; "expiresIn"; "remainingBudgetSats"; "paymentStatus"; "_demo"; "_note"]
      /\ (forall k : string,
             In k McpConfirmResponse -> In k (json_keys (text (reply confirm))))
      /\ (forall k : string,
             In k ["status"; "paymentStatus"; "expiresAt"; "_demo"; "_instructions"] ->
             In k (json_keys (text (reply status))))
      /\ (forall k : string,
             In k McpStatusResponse ->
             k = "quoteId" \/ In k (json_keys (text (reply status))))
      /\ (forall s : DemoSession,
             map_get (prop args "quoteId") (demoSessions st) = Some s ->
             is_undef (quoteId s) = false ->
             In "quoteId" (json_keys (text (reply status)))))
  /\ (nullish args = false ->
      map_has (prop args "quoteId") (demoSessions st) = false ->
      requests confirm = [confirm_request pe args]
      /\ requests status
         = (if converts (prop args "quoteId") then [status_request pe w args] else [])
      /\ (converts (prop args "quoteId") = false ->
          reply status
          = error_envelope (mkError TypeError "Cannot convert object to primitive value")))
  /\ requests start = (if nullish args then [] else [start_request pe args])
  /\ url (start_request pe args) = LIVEAUTH_API_BASE pe +:+ "/api/public/demo/start"
  /\ (nullish args = true ->
      requests confirm = [] /\ isError (reply confirm) = true
      /\ requests status = [] /\ isError (reply status) = true
      /\ isError (reply start) = true).
Proof.
  intros Hd usage confirm status start.
  split; [|split; [|split; [|split; [|split]]]].
  - assert (Hu : usage = {| reply := {| text := JsonText usage_demo_reply; isError := false |};
                            after := st; requests := []; stderr := [] |}).
    { subst usage. run_tool. rewrite Hd. destruct st. reflexivity. }
    rewrite Hu. cbn [requests after reply text].
    split; [reflexivity|]. split; [reflexivity|]. split; [reflexivity|].
    split; [reflexivity|]. split; [|split].
    + intros k Hk. simpl in Hk.
      repeat (destruct Hk as [<-|Hk]; [simpl; auto 10|]). destruct Hk.
    + simpl. intros H. repeat (destruct H as [H|H]; [discriminate H|]). exact H.
    + simpl. intros H. repeat (destruct H as [H|H]; [discriminate H|]). exact H.
  - intros Ha Hh.
    destruct (map_has_get _ _ Hh) as [s Hs].
    subst confirm status.
    rewrite (confirm_demo_outcome pe w args st Hd Ha Hh).
    rewrite (status_demo_outcome pe w args st s Hd Ha Hs).
    cbn [requests reply text text_result isError].
    rewrite status_demo_reply_keys, status_poll_quoteId.
    split; [reflexivity|]. split; [reflexivity|]. split; [reflexivity|].
    split; [reflexivity|]. split; [reflexivity|].
    split; [|split; [|split]].
    + intros k Hk. simpl in Hk |- *. tauto.
    + intros k Hk. apply in_or_app. right. exact Hk.
    + intros k Hk. simpl in Hk.
      destruct Hk as [<-|Hk]; [left; reflexivity|].
      right. apply in_or_app. right. simpl. tauto.
    + intros s' Hs' Hu. rewrite Hs in Hs'. injection Hs' as <-.
      rewrite Hu. left. reflexivity.
  - intros Ha Hh. subst confirm status.
    assert (Hg : map_get (prop args "quoteId") (demoSessions st) = None).
    { unfold map_has in Hh.
      destruct (map_get (prop args "quoteId") (demoSessions st)); [discriminate|reflexivity]. }
    split; [apply confirm_forwarded; [exact Ha | rewrite Hh; apply andb_false_r]|].
    destruct (status_forwarded pe w args st Ha) as [Hreq Herr].
    { rewrite Hd. exact Hg. }
    split; [exact Hreq|]. intros Hc. apply Herr. exact Hc.
  - apply start_sends.
  - unfold start_request, start_endpoint. rewrite Hd. reflexivity.
  - intros Ha. subst confirm status start.
    destruct (missing_bag pe w "liveauth_mcp_confirm" args st) as (H1 & H2 & _);
      [simpl; auto | exact Ha |].
    destruct (missing_bag pe w "liveauth_mcp_status" args st) as (H3 & H4 & _);
      [simpl; auto | exact Ha |].
    destruct (missing_bag pe w "liveauth_mcp_start" args st) as (_ & H5 & _);
      [simpl; auto | exact Ha |].
    repeat split; assumption.
Qed.

Lemma demo_mode_outbound_calls_witness :
  let w := Samples.world_at 500 (Samples.answers VNull) in
  let st := Samples.with_session "q_1" 0 false in
  LIVEAUTH_DEMO Samples.demo = true
  /\ requests (invoke Samples.demo w "liveauth_mcp_usage" (VObj []) st) = []
  /\ requests (invoke Samples.demo w "liveauth_mcp_status" (Samples.quote_args "q_1") st) = []
  /\ In "quoteId"
       (json_keys (text (reply (invoke Samples.demo w "liveauth_mcp_status"
                                  (Samples.quote_args "q_1") st)))).
Proof.
  intros w st.
  destruct (demo_mode_outbound_calls Samples.demo w (Samples.quote_args "q_1") st eq_refl)
    as (_ & Hlocal & _).
  destruct (demo_mode_outbound_calls Samples.demo w (VObj []) st eq_refl)
    as ((Hu & _) & _).
  destruct (Hlocal eq_refl eq_refl) as (_ & Hs & _ & _ & _ & _ & _ & _ & Hq).
  split; [reflexivity|]. split; [exact Hu|]. split; [exact Hs|].
  apply (Hq (Samples.session "q_1" 0 false)); reflexivity.
Defined.

(** ** Demo mode: status *)

Lemma status_reply_payment (w : World) (now : Z) (s : DemoSession) :
  json_field (JSON_stringify (status_demo_reply w now s)) "paymentStatus"
  = Some (VStr (if paid s then "paid" else "pending")).
Proof.
  unfold JSON_stringify, status_demo_reply. rewrite json_norm_obj.
  cbn -[json_norm]. destruct (is_undef (quoteId s)); reflexivity.
Qed.

Lemma status_poll_paid (w : World) (s : DemoSession) :
  paid (status_poll w s) = paid s || (2000 <? Date_now w 0 - createdAt s).
Proof.
  unfold status_poll.
  destruct (paid s) eqn:Hp, (2000 <? Date_now w 0 - createdAt s); simpl; auto.
Qed.

(** The reply of a demo status call, by the flag and the time elapsed. *)
Lemma status_by_elapsed
  (pe : ProcessEnv) (w : World) (args : JsVal) (st : State) (s : DemoSession) :
  LIVEAUTH_DEMO pe = true ->
  nullish args = false ->
  map_get (prop args "quoteId") (demoSessions st) = Some s ->
  payment_status (invoke pe w "liveauth_mcp_status" args st)
  = Some (VStr (if paid s || (2000 <? Date_now w 0 - createdAt s)
                then "paid" else "pending")).
Proof.
  intros Hd Ha Hs. rewrite (status_demo_outcome _ _ _ _ _ Hd Ha Hs).
  unfold payment_status. cbn [reply text text_result].
  rewrite status_reply_payment, status_poll_paid. reflexivity.
Qed.

(** What a call can do to the session map. *)
Lemma sessions_after
  (pe : ProcessEnv) (w : World) (name : string) (args : JsVal) (st : State) :
  demoSessions (after (invoke pe w name args st)) = demoSessions st
  \/ (exists (k : JsVal) (f : DemoSession -> DemoSession),
         (f = mark_paid \/ f = status_poll w)
         /\ demoSessions (after (invoke pe w name args st))
            = map_update k f (demoSessions st))
  \/ (name = "liveauth_mcp_start"
      /\ exists (r : Response) (result : JsVal),
           fetch_outcome w (start_request pe args) = Responded r
           /\ json_body r = Some result
           /\ demoSessions (after (invoke pe w name args st))
              = map_set (start_sessionId result) (start_session w result)
                  (demoSessions st)).
Proof.
  unfold invoke, dispatch.
  destruct (String.eqb name "liveauth_mcp_start") eqn:E.
  - apply String.eqb_eq in E. subst name.
    unfold_handlers; unfold_monad; all_paths; eauto 10.
  - clear E.
    repeat match goal with
           | |- context [String.eqb name ?lit] => destruct (String.eqb name lit)
           end;
      unfold_handlers; unfold_monad; all_paths; eauto 10.
Qed.

Lemma paid_after_update
  (w : World) (id k : JsVal) (f : DemoSession -> DemoSession) (m : SessionMap) :
  f = mark_paid \/ f = status_poll w ->
  (exists s : DemoSession, map_get id m = Some s /\ paid s = true) ->
  exists s : DemoSession, map_get id (map_update k f m) = Some s /\ paid s = true.
Proof.
  intros Hf (s & Hs & Hp). rewrite map_get_update, Hs.
  destruct (same_value_zero id k); [|eauto].
  exists (f s). split; [reflexivity|].
  destruct Hf as [-> | ->]; [reflexivity|].
  rewrite status_poll_paid, Hp. reflexivity.
Qed.

(** A paid session stays paid through every call but a start that is
    handed the same id again. *)
Lemma step_keeps_paid (pe : ProcessEnv) (id : JsVal) (st : State) (c : Call) :
  paid_in id st -> ~ reissues pe id c -> paid_in id (after (step pe st c)).
Proof.
  intros Hp Hn. unfold step, paid_in in *.
  destruct (sessions_after pe (world c) (tool c) (arguments c) st)
    as [-> | [(k & f & Hf & ->) | (Hs & r & result & Hr & Hb & ->)]].
  - exact Hp.
  - eapply paid_after_update; eassumption.
  - rewrite map_get_set; [exact Hp|].
    destruct (same_value_zero id (start_sessionId result)) eqn:E; [|reflexivity].
    exfalso. apply Hn. split; [exact Hs|]. eauto.
Qed.

(** Monotonicity, over a whole history. *)
Lemma paid_is_monotonic (pe : ProcessEnv) (id : JsVal) (calls : list Call) :
  LIVEAUTH_DEMO pe = true ->
  forall st : State,
    paid_in id st ->
    Forall (fun c => ~ reissues pe id c) calls ->
    forall (c : Call) (o : Outcome),
      In (c, o) (run pe st calls) ->
      tool c = "liveauth_mcp_status" ->
      nullish (arguments c) = false ->
      prop (arguments c) "quoteId" = id ->
      payment_status o = Some (VStr "paid").
Proof.
  intros Hd. induction calls as [|c0 calls IH]; intros st Hp Hall c o Hin Ht Ha Hq.
  - destruct Hin.
  - apply Forall_cons in Hall. destruct Hall as [Hc0 Hall].
    simpl in Hin. destruct Hin as [Heq | Hin].
    + injection Heq as <- <-. unfold step. rewrite Ht.
      destruct Hp as (s & Hs & Hpaid). rewrite <- Hq in Hs.
      rewrite (status_by_elapsed _ _ _ _ _ Hd Ha Hs), Hpaid. reflexivity.
    + apply (IH (after (step pe st c0))
               (step_keeps_paid pe id st c0 Hp Hc0) Hall c o Hin Ht Ha Hq).
Qed.

(** C2, counterexample.  Demo mode, a session created at time 0 and not yet
    paid, a status call when the clock shows 2000: the time elapsed is the
    threshold itself, the test [> 2000] is false, and the reply says
    [pending]. *)
Lemma demo_status_at_threshold_is_pending :
  let w := Samples.world_at 2000 (Samples.answers VNull) in
  let st := Samples.with_session "q_1" 0 false in
  map_get (VStr "q_1") (demoSessions st) = Some (Samples.session "q_1" 0 false)
  /\ Date_now w 0 - createdAt (Samples.session "q_1" 0 false) = 2000
  /\ payment_status (invoke Samples.demo w "liveauth_mcp_status" (Samples.quote_args "q_1") st)
     = Some (VStr "pending").
Proof. repeat split. Qed.

(** C2, as amended.  In demo mode, a status call for an id that has a demo
    session answers [pending] when the session has not been marked paid and
    the time elapsed since its creation is at most 2000 ms, and [paid] when
    the time elapsed is more than 2000 ms or the session has been marked
    paid before; a reply of [paid] leaves the session marked paid, and so
    does a confirm call for the id.  From
    then on every status call for the id answers [paid], through any
    history of calls in which no start call is handed the same id again by
    the demo endpoint. *)
Theorem demo_status_threshold :
  (forall (pe : ProcessEnv) (w : World) (args : JsVal) (st : State) (s : DemoSession),
      LIVEAUTH_DEMO pe = true ->
      nullish args = false ->
      map_get (prop args "quoteId") (demoSessions st) = Some s ->
      let o := invoke pe w "liveauth_mcp_status" args st in
      let elapsed := Date_now w 0 - createdAt s in
      (paid s = false -> elapsed <= 2000 -> payment_status o = Some (VStr "pending"))
      /\ (2000 < elapsed -> payment_status o = Some (VStr "paid"))
      /\ (paid s = true -> payment_status o = Some (VStr "paid"))
      /\ (payment_status o = Some (VStr "paid") ->
          paid_in (prop args "quoteId") (after o))
      /\ paid_in (prop args "quoteId")
           (after (invoke pe w "liveauth_mcp_confirm" args st)))
  /\ (forall (pe : ProcessEnv) (id : JsVal) (calls : list Call) (st : State),
        LIVEAUTH_DEMO pe = true ->
        paid_in id st ->
        Forall (fun c => ~ reissues pe id c) calls ->
        forall (c : Call) (o : Outcome),
          In (c, o) (run pe st calls) ->
          tool c = "liveauth_mcp_status" ->
          nullish (arguments c) = false ->
          prop (arguments c) "quoteId" = id ->
          payment_status o = Some (VStr "paid")).
Proof.
  split.
  - intros pe w args st s Hd Ha Hs o elapsed. subst o elapsed.
    rewrite (status_by_elapsed _ _ _ _ _ Hd Ha Hs).
    split; [|split; [|split; [|split]]].
    + intros Hp Hle. rewrite Hp. simpl.
      destruct (2000 <? Date_now w 0 - createdAt s) eqn:E; [|reflexivity].
      apply Z.ltb_lt in E. lia.
    + intros Hlt. apply Z.ltb_lt in Hlt. rewrite Hlt, orb_true_r. reflexivity.
    + intros Hp. rewrite Hp. reflexivity.
    + intros Hpaid.
      rewrite (status_demo_outcome _ _ _ _ _ Hd Ha Hs). unfold paid_in. simpl.
      exists (status_poll w s). split.
      * rewrite map_get_update, Hs, (same_value_zero_refl_of_key _ _ _ Hs). reflexivity.
      * rewrite status_poll_paid.
        destruct (paid s || (2000 <? Date_now w 0 - createdAt s));
          [reflexivity | discriminate Hpaid].
    + apply confirm_demo_marks_paid; [exact Hd | exact Ha |].
      unfold map_has. rewrite Hs. reflexivity.
  - intros pe id calls st Hd. apply paid_is_monotonic. exact Hd.
Qed.

Lemma demo_status_threshold_witness :
  let late := Samples.world_at 2001 (Samples.answers VNull) in
  let early := Samples.world_at 100 (Samples.answers VNull) in
  let q := Samples.quote_args "q_1" in
  2000 < Date_now late 0 - createdAt (Samples.session "q_1" 0 false)
  /\ payment_status (invoke Samples.demo late "liveauth_mcp_status" q
                       (Samples.with_session "q_1" 0 false))
     = Some (VStr "paid")
  /\ paid_in (VStr "q_1") (Samples.with_session "q_1" 0 true)
  /\ payment_status
       (invoke Samples.demo early "liveauth_mcp_status" q
          (after (step Samples.demo (Samples.with_session "q_1" 0 true)
                    (Samples.call "liveauth_mcp_usage" (VObj []) early))))
     = Some (VStr "paid").
Proof.
  intros late early q.
  destruct demo_status_threshold as [Hone Hmany].
  assert (Hlt : 2000 < Date_now late 0 - createdAt (Samples.session "q_1" 0 false))
    by (simpl; lia).
  assert (Hp : paid_in (VStr "q_1") (Samples.with_session "q_1" 0 true))
    by (eexists; split; reflexivity).
  destruct (Hone Samples.demo late q (Samples.with_session "q_1" 0 false)
              (Samples.session "q_1" 0 false) eq_refl eq_refl eq_refl)
    as (_ & Hpaid & _).
  split; [exact Hlt|]. split; [exact (Hpaid Hlt)|]. split; [exact Hp|].
  apply (Hmany Samples.demo (VStr "q_1")
           [Samples.call "liveauth_mcp_usage" (VObj []) early;
            Samples.call "liveauth_mcp_status" q early]
           (Samples.with_session "q_1" 0 true) eq_refl Hp
           ltac:(repeat constructor; intros [Ht _]; discriminate Ht)
           (Samples.call "liveauth_mcp_status" q early));
    [right; left; reflexivity | reflexivity | reflexivity | reflexivity].
Defined.

(** ** The cached credential *)

Lemma not_caching (name : string) :
  ~ caching name ->
  String.eqb name "liveauth_mcp_confirm" = false
  /\ String.eqb name "liveauth_mcp_refresh" = false.
Proof.
  intros H. split; apply String.eqb_neq; intros ->; apply H; [left|right]; reflexivity.
Qed.

Lemma caching_dec (name : string) : caching name \/ ~ caching name.
Proof.
  unfold caching.
  destruct (String.eqb name "liveauth_mcp_confirm") eqn:E1;
    [apply String.eqb_eq in E1; auto|].
  destruct (String.eqb name "liveauth_mcp_refresh") eqn:E2;
    [apply String.eqb_eq in E2; auto|].
  apply String.eqb_neq in E1, E2. right. intros [H|H]; contradiction.
Qed.

(** Only confirm and refresh assign the cached JWT. *)
Lemma jwt_unchanged_by_other_tools
  (pe : ProcessEnv) (w : World) (name : string) (args : JsVal) (st : State) :
  ~ caching name ->
  cachedJwt (after (invoke pe w name args st)) = cachedJwt st.
Proof.
  intros H. destruct (not_caching _ H) as [H1 H2].
  unfold invoke, dispatch. rewrite H1, H2.
  repeat match goal with
         | |- context [String.eqb name ?lit] => destruct (String.eqb name lit)
         end;
    unfold_handlers; unfold_monad; step_paths; reflexivity.
Qed.

(** Charge and usage build their headers from the cached JWT. *)
Lemma metering_request_headers
  (pe : ProcessEnv) (w : World) (name : string) (args : JsVal) (st : State)
  (req : HttpRequest) :
  metering name ->
  In req (requests (invoke pe w name args st)) ->
  headers req = authHeaders w (cachedJwt st).
Proof.
  intros [-> | ->]; run_tool; step_paths; simpl; intros Hin;
    repeat match goal with
           | H : _ \/ _ |- _ => destruct H as [<-|H]
           | H : False |- _ => destruct H
           end;
    reflexivity.
Qed.

Lemma metering_headers_history (pe : ProcessEnv) (calls : list Call) :
  forall st : State,
    Forall (fun c => ~ caching (tool c)) calls ->
    forall (c : Call) (o : Outcome) (req : HttpRequest),
      In (c, o) (run pe st calls) ->
      metering (tool c) ->
      In req (requests o) ->
      headers req = authHeaders (world c) (cachedJwt st).
Proof.
  induction calls as [|c0 calls IH]; intros st Hall c o req Hin Hm Hreq.
  - destruct Hin.
  - apply Forall_cons in Hall. destruct Hall as [Hc0 Hall].
    simpl in Hin. destruct Hin as [Heq | Hin].
    + injection Heq as <- <-. eapply metering_request_headers; eassumption.
    + rewrite (IH _ Hall c o req Hin Hm Hreq). unfold step.
      rewrite jwt_unchanged_by_other_tools by exact Hc0. reflexivity.
Qed.

Lemma authHeaders_truthy (w : World) (jwt : JsVal) :
  truthy jwt = true ->
  header "Authorization" (authHeaders w jwt) = Some ("Bearer " +:+ to_str w jwt).
Proof. intros H. unfold authHeaders. rewrite H. reflexivity. Qed.

Lemma authHeaders_falsy (w : World) (jwt : JsVal) :
  truthy jwt = false -> header "Authorization" (authHeaders w jwt) = None.
Proof. intros H. unfold authHeaders. rewrite H. reflexivity. Qed.

(** A history, call by call. *)
Lemma run_app (pe : ProcessEnv) (before rest : list Call) :
  forall st : State,
    run pe st (before ++ rest) = run pe st before ++ run pe (run_state pe st before) rest.
Proof.
  induction before as [|c0 before IH]; intros st; [reflexivity|].
  simpl. rewrite IH. reflexivity.
Qed.

Lemma run_reaches (pe : ProcessEnv) (before : list Call) (c : Call) (st : State) :
  In (c, step pe (run_state pe st before) c) (run pe st (before ++ [c])).
Proof. rewrite run_app. apply in_or_app. right. left. reflexivity. Qed.

(** As long as no confirm and no refresh has left a credential in the
    cache, there is none. *)
Lemma no_credential_yet (pe : ProcessEnv) (before : list Call) :
  forall st : State,
    truthy (cachedJwt st) = false ->
    (forall (c : Call) (o : Outcome),
        In (c, o) (run pe st before) -> caching (tool c) ->
        truthy (cachedJwt (after o)) = false) ->
    truthy (cachedJwt (run_state pe st before)) = false.
Proof.
  induction before as [|c0 before IH]; intros st Hst Hall; [exact Hst|].
  simpl. apply IH.
  - destruct (caching_dec (tool c0)) as [Hc|Hc].
    + apply (Hall c0 (step pe st c0)); [left; reflexivity | exact Hc].
    + unfold step. rewrite jwt_unchanged_by_other_tools by exact Hc. exact Hst.
  - intros c o Hin Hc. apply (Hall c o); [right; exact Hin | exact Hc].
Qed.

(** The state after a confirm that the demo engine does not answer. *)
Lemma confirm_remote_state
  (pe : ProcessEnv) (w : World) (args : JsVal) (st : State) :
  LIVEAUTH_DEMO pe && map_has (prop args "quoteId") (demoSessions st) = false ->
  after (invoke pe w "liveauth_mcp_confirm" args st)
  = {| cachedJwt :=
         if nullish args then cachedJwt st
         else default (cachedJwt st)
                (confirm_credential (fetch_outcome w (confirm_request pe args)));
       demoSessions := demoSessions st |}.
Proof.
  intros Hd. unfold confirm_credential. run_tool.
  destruct st as [jwt sessions].
  destruct (LIVEAUTH_DEMO pe); simpl in Hd |- *;
    step_paths; simpl in *; congruence.
Qed.

(** The one way in which a confirm call ends in the error flag with the
    state changed: the credential of the response has been cached, and the
    line that reports the refresh token cannot be written. *)
Lemma confirm_remote_error
  (pe : ProcessEnv) (w : World) (args : JsVal) (st : State) :
  LIVEAUTH_DEMO pe && map_has (prop args "quoteId") (demoSessions st) = false ->
  isError (reply (invoke pe w "liveauth_mcp_confirm" args st)) = true ->
  after (invoke pe w "liveauth_mcp_confirm" args st) = st
  \/ exists (r : Response) (result : JsVal),
       fetch_outcome w (confirm_request pe args) = Responded r
       /\ ok r = true
       /\ json_body r = Some result
       /\ is_str "pending" (prop result "paymentStatus") = false
       /\ truthy (prop result "jwt") = true
       /\ truthy (prop result "refreshToken") = true
       /\ converts (prop result "refreshToken") = false
       /\ after (invoke pe w "liveauth_mcp_confirm" args st)
          = {| cachedJwt := prop result "jwt"; demoSessions := demoSessions st |}.
Proof.
  intros Hd. run_tool.
  destruct st as [jwt sessions].
  destruct (LIVEAUTH_DEMO pe); simpl in Hd |- *;
    step_paths; simpl; intros He; try congruence; try (left; reflexivity);
    right; do 2 eexists; repeat split; eassumption.
Qed.

(** The state after a refresh that succeeds. *)
Lemma refresh_success
  (pe : ProcessEnv) (w : World) (args : JsVal) (st : State)
  (r : Response) (result : JsVal) :
  nullish args = false ->
  fetch_outcome w (refresh_request pe args) = Responded r ->
  ok r = true ->
  json_body r = Some result ->
  nullish result = false ->
  invoke pe w "liveauth_mcp_refresh" args st
  = {| reply := text_result (JSON_stringify result);
       after := {| cachedJwt := prop result "jwt"; demoSessions := demoSessions st |};
       requests := [refresh_request pe args];
       stderr := [] |}.
Proof.
  intros Ha Hf Hok Hb Hr. run_tool. rewrite Ha. simpl. rewrite Hf, Hok, Hb, Hr.
  reflexivity.
Qed.

(** C7, counterexample.  A live process in its initial state, a refresh
    that succeeds, then a charge: no confirm call has been made, and the
    charge request carries an [Authorization] header. *)
Lemma refresh_then_charge_presents_credential :
  let w := Samples.world_at 0
             (Samples.answers (VObj [("jwt", VStr "R1"); ("status", VStr "ok")])) in
  let charge := Samples.call "liveauth_mcp_charge" (VObj [("callCostSats", VNum 1)]) w in
  let calls :=
    [Samples.call "liveauth_mcp_refresh" (VObj [("refreshToken", VStr "rt_1")]) w; charge] in
  Forall (fun c => tool c <> "liveauth_mcp_confirm") calls
  /\ cachedJwt initial = VNull
  /\ exists (o : Outcome) (req : HttpRequest),
       In (charge, o) (run Samples.live initial calls)
       /\ requests o = [req]
       /\ header "Authorization" (headers req) = Some "Bearer R1".
Proof.
  split; [repeat constructor; discriminate|]. split; [reflexivity|].
  eexists. eexists. split; [right; left; reflexivity|]. split; reflexivity.
Qed.

(** C7, as amended.  In a history from the initial state in which no
    confirm and no refresh call has left a credential in the cache (a
    confirm that is refused, fails, or is told that the payment is pending
    leaves none), a request that charge or usage sends next carries no
    [Authorization] header.  After a confirm that the remote service
    answers with a 2xx response that does not report a pending payment and
    has a truthy [jwt], every request that charge or usage sends, through
    any history of calls up to the next confirm or refresh, carries
    [Authorization: Bearer] followed by that [jwt].  Charge, given an
    argument bag, and usage, outside demo mode, do send one request,
    provided that the cached value, when truthy, converts to a string. *)
Theorem credential_is_presented (pe : ProcessEnv) :
  (forall (before : list Call) (c : Call) (req : HttpRequest),
      (forall (c' : Call) (o' : Outcome),
          In (c', o') (run pe initial before) -> caching (tool c') ->
          truthy (cachedJwt (after o')) = false) ->
      metering (tool c) ->
      let o := step pe (run_state pe initial before) c in
      In (c, o) (run pe initial (before ++ [c]))
      /\ (In req (requests o) -> header "Authorization" (headers req) = None))
  /\ (forall (w : World) (args : JsVal) (st : State) (r : Response) (result : JsVal)
             (calls : list Call) (c : Call) (o : Outcome) (req : HttpRequest),
        LIVEAUTH_DEMO pe && map_has (prop args "quoteId") (demoSessions st) = false ->
        nullish args = false ->
        fetch_outcome w (confirm_request pe args) = Responded r ->
        ok r = true ->
        json_body r = Some result ->
        is_str "pending" (prop result "paymentStatus") = false ->
        truthy (prop result "jwt") = true ->
        cachedJwt (after (invoke pe w "liveauth_mcp_confirm" args st)) = prop result "jwt"
        /\ (Forall (fun c => ~ caching (tool c)) calls ->
            In (c, o) (run pe (after (invoke pe w "liveauth_mcp_confirm" args st)) calls) ->
            metering (tool c) ->
            In req (requests o) ->
            header "Authorization" (headers req)
            = Some ("Bearer " +:+ to_str (world c) (prop result "jwt"))))
  /\ (forall (w : World) (args : JsVal) (st : State),
        (truthy (cachedJwt st) = true -> converts (cachedJwt st) = true) ->
        (nullish args = false ->
         requests (invoke pe w "liveauth_mcp_charge" args st)
         = [charge_request pe w (cachedJwt st) args])
        /\ (LIVEAUTH_DEMO pe = false ->
            requests (invoke pe w "liveauth_mcp_usage" args st)
            = [usage_request pe w (cachedJwt st)])).
Proof.
  split; [|split].
  - intros before c req Hall Hm o. split; [apply run_reaches|].
    intros Hreq. subst o. unfold step in Hreq.
    rewrite (metering_request_headers pe _ _ _ _ req Hm Hreq).
    apply authHeaders_falsy. apply no_credential_yet; [reflexivity | exact Hall].
  - intros w args st r result calls c o req Hd Ha Hf Hok Hb Hpend Hjwt.
    assert (Hst : cachedJwt (after (invoke pe w "liveauth_mcp_confirm" args st))
                  = prop result "jwt").
    { rewrite (confirm_remote_state pe w args st Hd). simpl.
      rewrite Ha, Hf. simpl. rewrite Hok, Hb, Hpend, Hjwt.
      destruct result; try discriminate Hjwt. reflexivity. }
    split; [exact Hst|].
    intros Hall Hin Hm Hreq.
    rewrite (metering_headers_history pe calls _ Hall c o req Hin Hm Hreq), Hst.
    apply authHeaders_truthy. exact Hjwt.
  - intros w args st Hc. split.
    + intros Ha. apply charge_sends; assumption.
    + intros Hd. apply usage_sends; assumption.
Qed.

Lemma credential_is_presented_witness :
  let result := VObj [("jwt", VStr "J1"); ("expiresIn", VNum 3600); ("status", VStr "ok")] in
  let pending := VObj [("jwt", VNull); ("paymentStatus", VStr "pending")] in
  let w := Samples.world_at 0 (Samples.answers result) in
  let w0 := Samples.world_at 0 (Samples.answers pending) in
  let args := Samples.pow_args (VNum 18) (VStr "sig_test123") in
  let charge := Samples.call "liveauth_mcp_charge" (VObj [("callCostSats", VNum 1)]) w in
  let status := Samples.call "liveauth_mcp_status" (Samples.quote_args "q_1") w in
  let waiting := Samples.call "liveauth_mcp_confirm" (Samples.quote_args "q_1") w0 in
  let after_confirm := after (invoke Samples.live w "liveauth_mcp_confirm" args initial) in
  header "Authorization"
    (headers (charge_request Samples.live w (cachedJwt initial) (arguments charge))) = None
  /\ header "Authorization"
       (headers (charge_request Samples.live w (cachedJwt after_confirm) (arguments charge)))
     = Some "Bearer J1".
Proof.
  intros result pending w w0 args charge status waiting after_confirm.
  destruct (credential_is_presented Samples.live) as (Hbefore & Hafter & _).
  assert (Hall : Forall (fun c => ~ caching (tool c)) [status; charge]).
  { repeat constructor; intros [H|H]; discriminate H. }
  split.
  - apply (Hbefore [waiting; status] charge
             (charge_request Samples.live w (cachedJwt initial) (arguments charge))).
    + intros c' o' Hin _. simpl in Hin.
      destruct Hin as [H|[H|[]]]; injection H as <- <-; reflexivity.
    + left; reflexivity.
    + left; reflexivity.
  - destruct (Hafter w args initial {| ok := true; statusText := "OK";
                                       json_body := Some result |}
                result [status; charge] charge
                (step Samples.live after_confirm charge)
                (charge_request Samples.live w (cachedJwt after_confirm) (arguments charge))
                eq_refl eq_refl eq_refl eq_refl eq_refl eq_refl eq_refl)
      as [_ Hnext].
    apply (Hnext Hall).
    + right; left; reflexivity.
    + left; reflexivity.
    + left; reflexivity.
Defined.

(** C8, counterexample.  A live process: a refresh that succeeds with the
    credential [J2], then a confirm that succeeds with [J3], then a charge.
    The charge presents [J3], not the credential of the refresh.  A demo
    process: a refresh that succeeds, then usage, which sends no request
    and so presents no credential at all.  For each call: the error flag,
    the cached JWT it leaves, and the [Authorization] header of each of its
    requests. *)
Lemma refreshed_credential_not_presented :
  let wr := Samples.world_at 0 (Samples.answers (VObj [("jwt", VStr "J2")])) in
  let wc := Samples.world_at 1 (Samples.answers (VObj [("jwt", VStr "J3")])) in
  let refresh := Samples.call "liveauth_mcp_refresh" (VObj [("refreshToken", VStr "rt_1")]) wr in
  let confirm := Samples.call "liveauth_mcp_confirm" (Samples.quote_args "q_1") wc in
  let charge := Samples.call "liveauth_mcp_charge" (VObj [("callCostSats", VNum 1)]) wc in
  let usage := Samples.call "liveauth_mcp_usage" (VObj []) wc in
  let seen (co : Call * Outcome) :=
    (isError (reply (snd co)), cachedJwt (after (snd co)),
     map (fun req => header "Authorization" (headers req)) (requests (snd co))) in
  map seen (run Samples.live initial [refresh; confirm; charge])
  = [(false, VStr "J2", [None]);
     (false, VStr "J3", [None]);
     (false, VStr "J3", [Some "Bearer J3"])]
  /\ map seen (run Samples.demo initial [refresh; usage])
     = [(false, VStr "J2", [None]);
        (false, VStr "J2", [])].
Proof. split; reflexivity. Qed.

(** C8, as amended.  A refresh that succeeds (a 2xx response with a body to
    read [jwt] from) leaves [cachedJwt] equal to the [jwt] of the response,
    whatever was cached before; from then on, through any history of calls
    up to the next confirm or refresh, every request that charge or usage
    sends has the headers made from the new credential alone.  Right after
    the refresh, charge, given an argument bag, and usage, outside demo
    mode, do send one request with those headers, provided that the new
    credential, when truthy, converts to a string; in demo mode usage sends
    nothing. *)
Theorem refresh_overwrites_credential
  (pe : ProcessEnv) (w : World) (args : JsVal) (st : State)
  (r : Response) (result : JsVal) :
  nullish args = false ->
  fetch_outcome w (refresh_request pe args) = Responded r ->
  ok r = true ->
  json_body r = Some result ->
  nullish result = false ->
  let o := invoke pe w "liveauth_mcp_refresh" args st in
  let jwt := prop result "jwt" in
  isError (reply o) = false
  /\ cachedJwt (after o) = jwt
  /\ demoSessions (after o) = demoSessions st
  /\ (forall (calls : list Call) (c : Call) (o' : Outcome) (req : HttpRequest),
        Forall (fun c => ~ caching (tool c)) calls ->
        In (c, o') (run pe (after o) calls) ->
        metering (tool c) ->
        In req (requests o') ->
        headers req = authHeaders (world c) jwt
        /\ (truthy jwt = true ->
            header "Authorization" (headers req)
            = Some ("Bearer " +:+ to_str (world c) jwt)))
  /\ (forall (w' : World) (args' : JsVal),
        (truthy jwt = true -> converts jwt = true) ->
        (nullish args' = false ->
         requests (invoke pe w' "liveauth_mcp_charge" args' (after o))
         = [charge_request pe w' jwt args'])
        /\ (LIVEAUTH_DEMO pe = false ->
            requests (invoke pe w' "liveauth_mcp_usage" args' (after o))
            = [usage_request pe w' jwt]))
  /\ (forall (w' : World) (args' : JsVal),
        LIVEAUTH_DEMO pe = true ->
        requests (invoke pe w' "liveauth_mcp_usage" args' (after o)) = []).
Proof.
  intros Ha Hf Hok Hb Hr o jwt. subst o jwt.
  rewrite (refresh_success pe w args st r result Ha Hf Hok Hb Hr). cbn [reply after].
  split; [reflexivity|]. split; [reflexivity|]. split; [reflexivity|].
  split; [|split].
  - intros calls c o' req Hall Hin Hm Hreq.
    pose proof (metering_headers_history pe calls _ Hall c o' req Hin Hm Hreq) as Hh.
    simpl in Hh. split; [exact Hh|].
    intros Ht. rewrite Hh. apply authHeaders_truthy. exact Ht.
  - intros w' args' Hc. split.
    + intros Ha'.
      exact (charge_sends pe w' args'
               {| cachedJwt := prop result "jwt"; demoSessions := demoSessions st |} Ha' Hc).
    + intros Hd.
      exact (usage_sends pe w' args'
               {| cachedJwt := prop result "jwt"; demoSessions := demoSessions st |} Hd Hc).
  - intros w' args' Hd. run_tool. rewrite Hd. reflexivity.
Qed.

Lemma refresh_overwrites_credential_witness :
  let result := VObj [("jwt", VStr "J2"); ("expiresIn", VNum 3600);
                      ("remainingBudgetSats", VNum 900)] in
  let r := {| ok := true; statusText := "OK"; json_body := Some result |} in
  let w := Samples.world_at 0 (fun _ => Responded r) in
  let args := VObj [("refreshToken", VStr "rt_1")] in
  let st := {| cachedJwt := VStr "J1"; demoSessions := [] |} in
  let o := invoke Samples.live w "liveauth_mcp_refresh" args st in
  cachedJwt st = VStr "J1"
  /\ cachedJwt (after o) = VStr "J2"
  /\ requests (invoke Samples.live w "liveauth_mcp_usage" (VObj []) (after o))
     = [usage_request Samples.live w (VStr "J2")]
  /\ headers (usage_request Samples.live w (VStr "J2"))
     = [("Content-Type", "application/json"); ("Authorization", "Bearer J2")].
Proof.
  intros result r w args st o.
  destruct (refresh_overwrites_credential Samples.live w args st r result
              eq_refl eq_refl eq_refl eq_refl eq_refl) as (_ & Hj & _ & Hnext & Hsend & _).
  split; [reflexivity|]. split; [exact Hj|].
  destruct (Hsend w (VObj []) (fun _ => eq_refl)) as [_ Hu].
  split; [exact (Hu eq_refl)|].
  destruct (Hnext [Samples.call "liveauth_mcp_usage" (VObj []) w]
              (Samples.call "liveauth_mcp_usage" (VObj []) w)
              (step Samples.live (after o) (Samples.call "liveauth_mcp_usage" (VObj []) w))
              (usage_request Samples.live w (VStr "J2"))) as [Hh _].
  - repeat constructor. intros [H|H]; discriminate H.
  - left; reflexivity.
  - right; reflexivity.
  - left; reflexivity.
  - exact Hh.
Defined.

(** C10, counterexample.  A live process with [J1] cached; a confirm that
    the remote service answers with a 2xx response that carries the
    credential [JX] and, as its refresh token, an object with a [toString]
    field of its own.  The handler caches [JX], then throws while it builds
    the line that reports the refresh token: the call ends in the error
    flag, and the cached credential has changed. *)
Lemma failed_confirm_has_cached :
  let result := VObj [("jwt", VStr "JX"); ("expiresIn", VNum 3600);
                      ("remainingBudgetSats", VNum 1000);
                      ("refreshToken", VObj [("toString", VNum 1)])] in
  let r := {| ok := true; statusText := "OK"; json_body := Some result |} in
  let w := Samples.world_at 0 (fun _ => Responded r) in
  let st := {| cachedJwt := VStr "J1"; demoSessions := [] |} in
  let o := invoke Samples.live w "liveauth_mcp_confirm" (Samples.quote_args "q_1") st in
  LIVEAUTH_DEMO Samples.live = false
  /\ reply o = {| text := Lit "Error: Cannot convert object to primitive value";
                  isError := true |}
  /\ cachedJwt st = VStr "J1"
  /\ cachedJwt (after o) = VStr "JX".
Proof. repeat split. Qed.

(** C10, as amended.  A confirm that the demo engine does not answer leaves
    the session map alone.  It leaves the cached JWT alone when the request
    meets a network failure or a response that is not 2xx, when the
    response reports a pending payment, and when the [jwt] of the response
    is [null] or absent.  When it ends in the error flag, the state is as
    it was, with one exception: a 2xx response that is not pending, with a
    truthy [jwt] and a truthy refresh token that does not convert to a
    string; then the [jwt] has been cached before the error.  A 2xx
    response that is not pending and has a truthy [jwt] always gets it
    cached; if the cached JWT changes at all, the response was such a one.
    No tool other than confirm and refresh changes the cached JWT. *)
Theorem confirm_caches_atomically
  (pe : ProcessEnv) (w : World) (args : JsVal) (st : State) :
  LIVEAUTH_DEMO pe && map_has (prop args "quoteId") (demoSessions st) = false ->
  let o := invoke pe w "liveauth_mcp_confirm" args st in
  let out := fetch_outcome w (confirm_request pe args) in
  (isError (reply o) = true ->
   after o = st
   \/ exists (r : Response) (result : JsVal),
        out = Responded r /\ ok r = true /\ json_body r = Some result
        /\ is_str "pending" (prop result "paymentStatus") = false
        /\ truthy (prop result "jwt") = true
        /\ truthy (prop result "refreshToken") = true
        /\ converts (prop result "refreshToken") = false
        /\ after o = {| cachedJwt := prop result "jwt"; demoSessions := demoSessions st |})
  /\ (forall e : JsError, out = Rejected e -> after o = st)
  /\ (forall r : Response, out = Responded r -> ok r = false -> after o = st)
  /\ (forall (r : Response) (result : JsVal),
        out = Responded r ->
        json_body r = Some result ->
        nullish (prop result "jwt") = true \/ prop result "paymentStatus" = VStr "pending" ->
        after o = st)
  /\ (forall (r : Response) (result : JsVal),
        nullish args = false ->
        out = Responded r -> ok r = true -> json_body r = Some result ->
        is_str "pending" (prop result "paymentStatus") = false ->
        truthy (prop result "jwt") = true ->
        cachedJwt (after o) = prop result "jwt")
  /\ (cachedJwt (after o) <> cachedJwt st ->
      exists (r : Response) (result : JsVal),
        out = Responded r /\ ok r = true /\ json_body r = Some result
        /\ is_str "pending" (prop result "paymentStatus") = false
        /\ truthy (prop result "jwt") = true
        /\ prop result "jwt" <> VNull
        /\ cachedJwt (after o) = prop result "jwt")
  /\ demoSessions (after o) = demoSessions st
  /\ (forall (name : string) (w' : World) (args' : JsVal) (st' : State),
        ~ caching name ->
        cachedJwt (after (invoke pe w' name args' st')) = cachedJwt st').
Proof.
  intros Hd. cbv zeta.
  pose proof (confirm_remote_state pe w args st Hd) as Hst.
  assert (Hnone : confirm_credential (fetch_outcome w (confirm_request pe args)) = None ->
                  after (invoke pe w "liveauth_mcp_confirm" args st) = st).
  { intros Hn. rewrite Hst, Hn. simpl. destruct st, (nullish args); reflexivity. }
  split; [|split; [|split; [|split; [|split; [|split; [|split]]]]]].
  - apply confirm_remote_error. exact Hd.
  - intros e He. apply Hnone. rewrite He. reflexivity.
  - intros r Hr Hok. apply Hnone. rewrite Hr. simpl. rewrite Hok. reflexivity.
  - intros r result Hr Hb Hcase. apply Hnone. rewrite Hr. simpl. rewrite Hb.
    destruct (ok r); [|reflexivity].
    destruct (nullish result); [reflexivity|].
    destruct Hcase as [Hj | Hp].
    + destruct (is_str "pending" (prop result "paymentStatus")); [reflexivity|].
      destruct (prop result "jwt"); simpl in Hj |- *; try discriminate Hj; reflexivity.
    + rewrite Hp. reflexivity.
  - intros r result Ha Hr Hok Hb Hp Ht. rewrite Hst. cbn [cachedJwt].
    rewrite Ha, Hr. simpl. rewrite Hok, Hb, Hp, Ht.
    destruct result; try discriminate Ht; reflexivity.
  - rewrite Hst. cbn [cachedJwt]. intros Hchg.
    destruct (nullish args); [congruence|].
    unfold confirm_credential in *.
    destruct (fetch_outcome w (confirm_request pe args)) as [e|r];
      simpl in Hchg; [congruence|].
    destruct (ok r) eqn:Hok; simpl in Hchg; [|congruence].
    destruct (json_body r) as [result|] eqn:Hb; simpl in Hchg; [|congruence].
    destruct (nullish result); simpl in Hchg; [congruence|].
    destruct (is_str "pending" (prop result "paymentStatus")) eqn:Hp;
      simpl in Hchg; [congruence|].
    destruct (truthy (prop result "jwt")) eqn:Ht; simpl in Hchg; [|congruence].
    exists r, result. simpl.
    repeat split; try reflexivity; try assumption.
    apply truthy_not_null. exact Ht.
  - rewrite Hst. reflexivity.
  - intros name w' args' st' Hn. apply jwt_unchanged_by_other_tools. exact Hn.
Qed.

Lemma confirm_caches_atomically_witness :
  let pending := VObj [("jwt", VNull); ("expiresIn", VNum 0);
                       ("remainingBudgetSats", VNum 0);
                       ("paymentStatus", VStr "pending")] in
  let r := {| ok := true; statusText := "OK"; json_body := Some pending |} in
  let w := Samples.world_at 0 (fun _ => Responded r) in
  let st := {| cachedJwt := VStr "J1"; demoSessions := [] |} in
  LIVEAUTH_DEMO Samples.live && map_has (VStr "q_1") (demoSessions st) = false
  /\ after (invoke Samples.live w "liveauth_mcp_confirm" (Samples.quote_args "q_1") st) = st.
Proof.
  intros pending r w st.
  destruct (confirm_caches_atomically Samples.live w (Samples.quote_args "q_1") st eq_refl)
    as (_ & _ & _ & Hkeep & _).
  split; [reflexivity|].
  apply (Hkeep r pending eq_refl eq_refl). left. reflexivity.
Defined.

(** * Further properties of the server *)

(** ** Failures *)

(** X1.  Whatever the tool, a call that is answered with the error flag has
    left the session map as it was, and the cached JWT too, with one
    exception: a confirm whose 2xx response carries a truthy [jwt] and a
    truthy refresh token that does not convert to a string has cached the
    [jwt] before it fails on the line that reports the refresh token. *)
Theorem failed_call_changes_nothing
  (pe : ProcessEnv) (w : World) (name : string) (args : JsVal) (st : State) :
  isError (reply (invoke pe w name args st)) = true ->
  demoSessions (after (invoke pe w name args st)) = demoSessions st
  /\ (after (invoke pe w name args st) = st
      \/ (name = "liveauth_mcp_confirm"
          /\ exists (r : Response) (result : JsVal),
               fetch_outcome w (confirm_request pe args) = Responded r
               /\ ok r = true
               /\ json_body r = Some result
               /\ truthy (prop result "jwt") = true
               /\ truthy (prop result "refreshToken") = true
               /\ converts (prop result "refreshToken") = false
               /\ cachedJwt (after (invoke pe w name args st)) = prop result "jwt")).
Proof.
  destruct st as [jwt sessions].
  every_tool name; simpl; intros He; try congruence;
    (split; [reflexivity|]);
    try (left; reflexivity);
    right;
    match goal with
    | H : String.eqb name _ = true |- _ => apply String.eqb_eq in H
    end;
    (split; [assumption|]); do 2 eexists; repeat split; eassumption.
Qed.

Lemma failed_call_changes_nothing_witness :
  let w := Samples.world_at 0 (Samples.refuses "Unauthorized" VNull) in
  let st := {| cachedJwt := VStr "J1"; demoSessions := [] |} in
  let args := VObj [("refreshToken", VStr "rt_1")] in
  isError (reply (invoke Samples.live w "liveauth_mcp_refresh" args st)) = true
  /\ after (invoke Samples.live w "liveauth_mcp_refresh" args st) = st.
Proof.
  intros w st args.
  assert (He : isError (reply (invoke Samples.live w "liveauth_mcp_refresh" args st)) = true)
    by reflexivity.
  split; [exact He|].
  destruct (failed_call_changes_nothing Samples.live w "liveauth_mcp_refresh" args st He)
    as [_ [Hsame | [Hname _]]]; [exact Hsame | discriminate Hname].
Defined.

(** X2.  No tool sends more than one request in a call, and a request that
    the network rejects is not sent again: the reply is the rejection's
    message behind ["Error: "], and the state is as it was. *)
Theorem no_retry
  (pe : ProcessEnv) (w : World) (name : string) (args : JsVal) (st : State) :
  (length (requests (invoke pe w name args st)) <= 1)%nat
  /\ (forall (req : HttpRequest) (e : JsError),
        In req (requests (invoke pe w name args st)) ->
        fetch_outcome w req = Rejected e ->
        requests (invoke pe w name args st) = [req]
        /\ reply (invoke pe w name args st)
           = {| text := Lit ("Error: " +:+ message e); isError := true |}
        /\ after (invoke pe w name args st) = st).
Proof.
  destruct st as [jwt sessions]. split.
  - every_tool name; simpl; lia.
  - intros req e.
    every_tool name; simpl; intros Hin Hrej;
      try (destruct Hin; fail);
      destruct Hin as [<-|[]]; try congruence;
      match goal with
      | H : fetch_outcome _ ?q = Rejected _, H' : fetch_outcome _ ?q = Rejected _ |- _ =>
          rewrite H in H'; injection H' as <-
      end;
      repeat split.
Qed.

Lemma no_retry_witness :
  let down := fun _ : HttpRequest => Rejected (mkError FetchError "connect ECONNREFUSED") in
  let w := Samples.world_at 0 down in
  let o := invoke Samples.live w "liveauth_mcp_lnurl" (Samples.quote_args "q_1") initial in
  In (lnurl_request Samples.live w (Samples.quote_args "q_1")) (requests o)
  /\ reply o = {| text := Lit "Error: connect ECONNREFUSED"; isError := true |}
  /\ length (requests o) = 1%nat.
Proof.
  intros down w o.
  assert (Hin : In (lnurl_request Samples.live w (Samples.quote_args "q_1")) (requests o))
    by (left; reflexivity).
  destruct (no_retry Samples.live w "liveauth_mcp_lnurl" (Samples.quote_args "q_1") initial)
    as [_ Hrej].
  destruct (Hrej _ (mkError FetchError "connect ECONNREFUSED") Hin eq_refl)
    as (Hone & Hreply & _).
  split; [exact Hin|]. split; [exact Hreply|].
  fold o in Hone. rewrite Hone. reflexivity.
Defined.

(** X3.  When the remote service answers a request with a status that is
    not 2xx and a JSON body other than [null], the message of the call is
    the [error_description] of that body when it is truthy, and otherwise
    the tool's own word, ["failed:"] and the status text.  The reply is
    that message behind ["Error: "], with the error flag; when the
    description does not convert to a string, the reply is the message of
    the conversion error instead. *)
Theorem refusal_message
  (pe : ProcessEnv) (w : World) (name : string) (args : JsVal) (st : State)
  (req : HttpRequest) (r : Response) (error : JsVal) :
  In req (requests (invoke pe w name args st)) ->
  fetch_outcome w req = Responded r ->
  ok r = false ->
  json_body r = Some error ->
  nullish error = false ->
  let described := failure_message (failure_label name) r error in
  reply (invoke pe w name args st)
  = {| text :=
         Lit ("Error: "
                +:+ (if converts described then to_str w described
                     else "Cannot convert object to primitive value"));
       isError := true |}
  /\ after (invoke pe w name args st) = st.
Proof.
  unfold failure_label. destruct st as [jwt sessions].
  every_tool name; simpl; intros Hin Hf Hok Hb Hn;
    try (destruct Hin; fail);
    destruct Hin as [<-|[]]; try congruence;
    repeat match goal with
           | H : fetch_outcome _ ?q = Responded ?a,
             H' : fetch_outcome _ ?q = Responded ?b |- _ =>
               rewrite H in H'; injection H' as ->
           end;
    try congruence;
    repeat match goal with
           | H : json_body ?a = Some ?x, H' : json_body ?a = Some ?y |- _ =>
               rewrite H in H'; injection H' as ->
           end;
    try congruence;
    split; reflexivity.
Qed.

Lemma refusal_message_witness :
  let r := {| ok := false; statusText := "Too Many Requests";
              json_body := Some (VObj [("error", VStr "rate_limited")]) |} in
  let w := Samples.world_at 0 (fun _ => Responded r) in
  let args := Samples.quote_args "q_1" in
  let o := invoke Samples.live w "liveauth_mcp_status" args initial in
  In (status_request Samples.live w args) (requests o)
  /\ reply o = {| text := Lit "Error: Status check failed: Too Many Requests";
                  isError := true |}.
Proof.
  intros r w args o.
  assert (Hin : In (status_request Samples.live w args) (requests o)) by (left; reflexivity).
  split; [exact Hin|].
  exact (proj1 (refusal_message Samples.live w "liveauth_mcp_status" args initial
                  (status_request Samples.live w args) r
                  (VObj [("error", VStr "rate_limited")])
                  Hin eq_refl eq_refl eq_refl eq_refl)).
Defined.

(** ** What is sent, and where *)

(** The request of a call, when there is one, is the one its tool builds. *)
Lemma request_of_tool
  (pe : ProcessEnv) (w : World) (name : string) (args : JsVal) (st : State)
  (req : HttpRequest) :
  In req (requests (invoke pe w name args st)) ->
  (name = "liveauth_mcp_start" /\ req = start_request pe args)
  \/ (name = "liveauth_mcp_confirm" /\ req = confirm_request pe args)
  \/ (name = "liveauth_mcp_charge" /\ req = charge_request pe w (cachedJwt st) args)
  \/ (name = "liveauth_mcp_usage" /\ req = usage_request pe w (cachedJwt st)
      /\ LIVEAUTH_DEMO pe = false)
  \/ (name = "liveauth_mcp_status" /\ req = status_request pe w args
      /\ converts (prop args "quoteId") = true)
  \/ (name = "liveauth_mcp_lnurl" /\ req = lnurl_request pe w args
      /\ converts (prop args "quoteId") = true)
  \/ (name = "liveauth_mcp_refresh" /\ req = refresh_request pe args).
Proof.
  every_tool name; simpl; intros Hin;
    try (destruct Hin; fail);
    destruct Hin as [<-|[]];
    match goal with
    | H : String.eqb name _ = true |- _ => apply String.eqb_eq in H; rewrite H
    end;
    repeat first [ left; repeat split; (reflexivity || assumption) | right ];
    repeat split; (reflexivity || assumption).
Qed.

Lemma getAuthHeaders_key (pe : ProcessEnv) :
  header "X-LW-Public" (getAuthHeaders pe)
  = if LIVEAUTH_DEMO pe then None else Some (LIVEAUTH_API_KEY pe).
Proof.
  unfold getAuthHeaders, LIVEAUTH_DEMO.
  destruct (match env_LIVEAUTH_DEMO pe with Some s => String.eqb s "true" | None => false end),
           (String.eqb (LIVEAUTH_API_KEY pe) ""); reflexivity.
Qed.

Lemma authHeaders_no_key (w : World) (jwt : JsVal) :
  header "X-LW-Public" (authHeaders w jwt) = None.
Proof. unfold authHeaders. destruct (truthy jwt); reflexivity. Qed.

Lemma live_has_key (pe : ProcessEnv) :
  LIVEAUTH_DEMO pe = false -> LIVEAUTH_API_KEY pe <> "".
Proof.
  unfold LIVEAUTH_DEMO. intros H. apply orb_false_elim in H. destruct H as [_ H].
  apply String.eqb_neq. exact H.
Qed.

(** X4.  Which secret goes where.  The API key of the bridge travels as
    [X-LW-Public] on the requests of start, confirm, status and lnurl of a
    live process, a process without a key being in demo mode; it is on no
    request of a process in demo mode, and never on a request of charge,
    usage or refresh.  The cached JWT travels as [Authorization] on
    requests of charge and usage only.  Every request is sent as JSON. *)
Theorem secrets_on_the_wire
  (pe : ProcessEnv) (w : World) (name : string) (args : JsVal) (st : State)
  (req : HttpRequest) :
  In req (requests (invoke pe w name args st)) ->
  (LIVEAUTH_DEMO pe = true -> header "X-LW-Public" (headers req) = None)
  /\ (LIVEAUTH_DEMO pe = false ->
      In name keyed_tools ->
      header "X-LW-Public" (headers req) = Some (LIVEAUTH_API_KEY pe)
      /\ LIVEAUTH_API_KEY pe <> "")
  /\ (~ In name keyed_tools -> header "X-LW-Public" (headers req) = None)
  /\ (~ metering name -> header "Authorization" (headers req) = None)
  /\ header "Content-Type" (headers req) = Some "application/json".
Proof.
  intros Hin. apply request_of_tool in Hin.
  assert (Hnot : forall a b : string, a <> b -> String.eqb a b = false)
    by (intros a b; apply String.eqb_neq).
  destruct Hin
    as [[-> ->]|[[-> ->]|[[-> ->]|[(-> & -> & Hlive)|[(-> & -> & Hq)|[(-> & -> & Hq)|[-> ->]]]]]]];
    cbn [headers start_request confirm_request charge_request usage_request
           status_request lnurl_request refresh_request];
    rewrite ?getAuthHeaders_key, ?authHeaders_no_key;
    (split; [intros Hd; rewrite ?Hd; try reflexivity; congruence|]);
    (split; [intros Hd Hk; first [ rewrite Hd; split; [reflexivity | apply live_has_key; exact Hd]
                                | exfalso; simpl in Hk; intuition discriminate ]|]);
    (split; [intros Hk; first [ reflexivity | exfalso; apply Hk; simpl; tauto ]|]);
    (split; [intros Hm;
             first [ exfalso; apply Hm; unfold metering; tauto
                   | unfold getAuthHeaders;
                     destruct (negb (String.eqb (LIVEAUTH_API_KEY pe) "") && negb (LIVEAUTH_DEMO pe));
                     reflexivity
                   | reflexivity ]|]);
    first [ reflexivity
          | unfold getAuthHeaders;
            destruct (negb (String.eqb (LIVEAUTH_API_KEY pe) "") && negb (LIVEAUTH_DEMO pe));
            reflexivity
          | unfold authHeaders; destruct (truthy (cachedJwt st)); reflexivity ].
Qed.

Lemma secrets_on_the_wire_witness :
  let w := Samples.world_at 0 (Samples.answers (VObj [("status", VStr "pending")])) in
  let st := {| cachedJwt := VStr "J1"; demoSessions := [] |} in
  let args := Samples.quote_args "q_1" in
  let req := status_request Samples.live w args in
  In req (requests (invoke Samples.live w "liveauth_mcp_status" args st))
  /\ header "X-LW-Public" (headers req) = Some "la_pk_test"
  /\ header "Authorization" (headers req) = None.
Proof.
  intros w st args req.
  assert (Hin : In req (requests (invoke Samples.live w "liveauth_mcp_status" args st)))
    by (left; reflexivity).
  destruct (secrets_on_the_wire Samples.live w "liveauth_mcp_status" args st req Hin)
    as (_ & Hkey & _ & Hauth & _).
  split; [exact Hin|]. split.
  - apply Hkey; [reflexivity | simpl; tauto].
  - apply Hauth. intros [H|H]; discriminate H.
Defined.

Lemma base_not_empty (pe : ProcessEnv) : LIVEAUTH_API_BASE pe <> "".
Proof.
  unfold LIVEAUTH_API_BASE, env_or.
  destruct (env_LIVEAUTH_API_BASE pe) as [s|]; [|discriminate].
  destruct (String.eqb s "") eqn:E; [discriminate|].
  apply String.eqb_neq. exact E.
Qed.

(** X5.  Where requests go.  The URL of every request is the configured
    base URL, which is never empty, followed by the fixed path of the tool;
    for status and lnurl, that path ends in the [quoteId] argument as a
    template literal prints it, character for character, without any
    escaping.  A request is a GET without a body or a POST with a JSON
    body. *)
Theorem request_urls
  (pe : ProcessEnv) (w : World) (name : string) (args : JsVal) (st : State)
  (req : HttpRequest) :
  In req (requests (invoke pe w name args st)) ->
  LIVEAUTH_API_BASE pe <> ""
  /\ (exists path : string,
         url req = LIVEAUTH_API_BASE pe +:+ path
         /\ (In (name, path)
               [("liveauth_mcp_start",
                 if LIVEAUTH_DEMO pe then "/api/public/demo/start" else "/api/mcp/start");
                ("liveauth_mcp_confirm", "/api/mcp/confirm");
                ("liveauth_mcp_charge", "/api/mcp/charge");
                ("liveauth_mcp_usage", "/api/mcp/usage");
                ("liveauth_mcp_refresh", "/api/mcp/refresh")]
             \/ (converts (prop args "quoteId") = true
                 /\ In (name, path)
                      [("liveauth_mcp_status",
                        "/api/mcp/status/" +:+ to_str w (prop args "quoteId"));
                       ("liveauth_mcp_lnurl",
                        "/api/mcp/lnurl/" +:+ to_str w (prop args "quoteId"))])))
  /\ ((method req = "GET" /\ body req = None)
      \/ (method req = "POST" /\ exists v : JsVal, body req = Some (JsonText v))).
Proof.
  intros Hin. apply request_of_tool in Hin.
  split; [apply base_not_empty|].
  destruct Hin
    as [[-> ->]|[[-> ->]|[[-> ->]|[(-> & -> & Hlive)|[(-> & -> & Hq)|[(-> & -> & Hq)|[-> ->]]]]]]];
    (split;
     [ unfold start_request, start_endpoint, confirm_request, charge_request,
         usage_request, status_request, lnurl_request, refresh_request; cbn [url];
       try destruct (LIVEAUTH_DEMO pe);
       eexists; (split; [reflexivity|]);
       first [ left; simpl; tauto | right; split; [exact Hq|]; simpl; tauto ]
     | first [ left; split; reflexivity
             | right; split; [reflexivity | eexists; reflexivity] ] ]).
Qed.

Lemma request_urls_witness :
  let pe := {| env_LIVEAUTH_API_BASE := Some "http://localhost:5000";
               env_LIVEAUTH_API_KEY := Some "la_pk_test";
               env_LIVEAUTH_DEMO := None |} in
  let w := Samples.world_at 0 (Samples.answers (VObj [("status", VStr "ok")])) in
  let args := Samples.quote_args "../../admin?x=" in
  let req := status_request pe w args in
  In req (requests (invoke pe w "liveauth_mcp_status" args initial))
  /\ url req = "http://localhost:5000/api/mcp/status/../../admin?x=".
Proof.
  intros pe w args req.
  assert (Hin : In req (requests (invoke pe w "liveauth_mcp_status" args initial)))
    by (left; reflexivity).
  split; [exact Hin|].
  destruct (request_urls pe w "liveauth_mcp_status" args initial req Hin)
    as (_ & (path & Hurl & Hpath) & _).
  rewrite Hurl.
  destruct Hpath as [Hfixed | [_ Hid]]; simpl in *.
  - repeat (destruct Hfixed as [Hfixed|Hfixed]; [discriminate Hfixed|]). destruct Hfixed.
  - destruct Hid as [Hid|[Hid|[]]]; [|discriminate Hid].
    injection Hid as <-. reflexivity.
Defined.

(** Lnurl, given an argument bag, sends its one request, unless the id
    cannot be written into the URL. *)
Lemma lnurl_sends
  (pe : ProcessEnv) (w : World) (args : JsVal) (st : State) :
  nullish args = false ->
  requests (invoke pe w "liveauth_mcp_lnurl" args st)
  = (if converts (prop args "quoteId") then [lnurl_request pe w args] else []).
Proof.
  intros Ha. run_tool. rewrite Ha. simpl.
  destruct (converts (prop args "quoteId")); [|reflexivity].
  step_paths; reflexivity.
Qed.

(** X6.  A required argument that is missing is not noticed.  With an
    argument bag that has no [quoteId], lnurl sends its GET to the path
    that ends in [undefined], and so does status in a live process; confirm
    in a live process sends a payload without the [quoteId] field. *)
Theorem missing_quote_id_is_sent
  (pe : ProcessEnv) (w : World) (args : JsVal) (st : State) :
  nullish args = false ->
  prop args "quoteId" = VUndef ->
  (requests (invoke pe w "liveauth_mcp_lnurl" args st) = [lnurl_request pe w args]
   /\ url (lnurl_request pe w args) = LIVEAUTH_API_BASE pe +:+ "/api/mcp/lnurl/undefined")
  /\ (LIVEAUTH_DEMO pe = false ->
      requests (invoke pe w "liveauth_mcp_status" args st) = [status_request pe w args]
      /\ url (status_request pe w args) = LIVEAUTH_API_BASE pe +:+ "/api/mcp/status/undefined"
      /\ requests (invoke pe w "liveauth_mcp_confirm" args st) = [confirm_request pe args]
      /\ wire_field (confirm_request pe args) "quoteId" = None).
Proof.
  intros Ha Hq. split; [split|].
  - rewrite (lnurl_sends pe w args st Ha), Hq. reflexivity.
  - unfold lnurl_request. cbn [url]. rewrite Hq. reflexivity.
  - intros Hd. split; [|split; [|split]].
    + destruct (status_forwarded pe w args st Ha) as [Hreq _];
        [rewrite Hd; reflexivity|].
      rewrite Hreq, Hq. reflexivity.
    + unfold status_request. cbn [url]. rewrite Hq. reflexivity.
    + apply confirm_forwarded; [exact Ha | rewrite Hd; reflexivity].
    + rewrite confirm_request_field. unfold confirm_wire. rewrite Hq.
      cbn -[json_norm prop].
      repeat match goal with
             | |- context [is_undef ?v] => destruct (is_undef v)
             | |- context [truthy ?v] => destruct (truthy v)
             end; reflexivity.
Qed.

Lemma missing_quote_id_is_sent_witness :
  let w := Samples.world_at 0 (Samples.answers (VObj [("pr", VStr "lnbc1"); ("routes", VArr [])])) in
  prop (VObj []) "quoteId" = VUndef
  /\ requests (invoke Samples.live w "liveauth_mcp_lnurl" (VObj []) initial)
     = [lnurl_request Samples.live w (VObj [])]
  /\ url (lnurl_request Samples.live w (VObj []))
     = "https://api.liveauth.app/api/mcp/lnurl/undefined".
Proof.
  intros w.
  destruct (missing_quote_id_is_sent Samples.live w (VObj []) initial eq_refl eq_refl)
    as [[Hreq Hurl] _].
  split; [reflexivity|]. split; [exact Hreq | exact Hurl].
Defined.

(** ** The session map, call after call *)

Lemma map_get_set_same (k : JsVal) (s : DemoSession) (m : SessionMap) :
  same_value_zero k k = true -> map_get k (map_set k s m) = Some s.
Proof.
  intros Hk. induction m as [|[k0 s0] m IH]; simpl.
  - rewrite Hk. reflexivity.
  - destruct (same_value_zero k k0) eqn:E; simpl; rewrite E; [reflexivity | exact IH].
Qed.

Lemma map_has_set (id k : JsVal) (s : DemoSession) (m : SessionMap) :
  map_has id m = true -> map_has id (map_set k s m) = true.
Proof.
  unfold map_has. intros H.
  destruct (same_value_zero id k) eqn:E.
  - pose proof (same_value_zero_eq _ _ E). subst k.
    rewrite map_get_set_same by exact E. reflexivity.
  - rewrite map_get_set by exact E. exact H.
Qed.

Lemma map_has_update (id k : JsVal) (f : DemoSession -> DemoSession) (m : SessionMap) :
  map_has id (map_update k f m) = map_has id m.
Proof.
  unfold map_has. rewrite map_get_update.
  destruct (same_value_zero id k), (map_get id m); reflexivity.
Qed.

Lemma live_sessions_untouched
  (pe : ProcessEnv) (w : World) (name : string) (args : JsVal) (st : State) :
  LIVEAUTH_DEMO pe = false ->
  demoSessions (after (invoke pe w name args st)) = demoSessions st.
Proof.
  intros Hd. unfold invoke, dispatch.
  repeat match goal with
         | |- context [String.eqb name ?lit] => destruct (String.eqb name lit)
         end;
    unfold_handlers; rewrite ?Hd; unfold_monad; step_paths; reflexivity.
Qed.

(** X7.  Demo sessions are never removed: through any history of calls, an
    id that has a session keeps one.  And a live process never writes to
    the session map at all. *)
Theorem sessions_are_kept (pe : ProcessEnv) (id : JsVal) (calls : list Call) :
  forall (st : State) (c : Call) (o : Outcome),
    In (c, o) (run pe st calls) ->
    (map_has id (demoSessions st) = true -> map_has id (demoSessions (after o)) = true)
    /\ (LIVEAUTH_DEMO pe = false -> demoSessions (after o) = demoSessions st).
Proof.
  assert (Hstep : forall (st : State) (c : Call),
             (map_has id (demoSessions st) = true ->
              map_has id (demoSessions (after (step pe st c))) = true)
             /\ (LIVEAUTH_DEMO pe = false ->
                 demoSessions (after (step pe st c)) = demoSessions st)).
  { intros st c. split.
    - intros Hh. unfold step.
      destruct (sessions_after pe (world c) (tool c) (arguments c) st)
        as [-> | [(k & f & _ & ->) | (_ & r & result & _ & _ & ->)]].
      + exact Hh.
      + rewrite map_has_update. exact Hh.
      + apply map_has_set. exact Hh.
    - intros Hd. apply live_sessions_untouched. exact Hd. }
  induction calls as [|c0 calls IH]; intros st c o Hin.
  - destruct Hin.
  - simpl in Hin. destruct Hin as [Heq | Hin].
    + injection Heq as <- <-. apply Hstep.
    + destruct (Hstep st c0) as [Hkeep Hlive].
      destruct (IH _ c o Hin) as [Hkeep' Hlive'].
      split.
      * intros Hh. apply Hkeep', Hkeep, Hh.
      * intros Hd. rewrite (Hlive' Hd). apply Hlive. exact Hd.
Qed.

Lemma sessions_are_kept_witness :
  let w := Samples.world_at 9000 (Samples.answers (VObj [("status", VStr "ok")])) in
  let st := Samples.with_session "q_1" 0 false in
  let calls := [Samples.call "liveauth_mcp_confirm" (Samples.quote_args "q_1") w;
                Samples.call "liveauth_mcp_status" (Samples.quote_args "q_1") w] in
  map_has (VStr "q_1") (demoSessions st) = true
  /\ map_has (VStr "q_1")
       (demoSessions (after (step Samples.demo (after (step Samples.demo st
                                (Samples.call "liveauth_mcp_confirm" (Samples.quote_args "q_1") w)))
                               (Samples.call "liveauth_mcp_status" (Samples.quote_args "q_1") w))))
     = true.
Proof.
  intros w st calls.
  split; [reflexivity|].
  destruct (sessions_are_kept Samples.demo (VStr "q_1") calls st
              (Samples.call "liveauth_mcp_status" (Samples.quote_args "q_1") w)
              (step Samples.demo (after (step Samples.demo st
                      (Samples.call "liveauth_mcp_confirm" (Samples.quote_args "q_1") w)))
                 (Samples.call "liveauth_mcp_status" (Samples.quote_args "q_1") w)))
    as [Hkeep _].
  - right; left; reflexivity.
  - apply Hkeep. reflexivity.
Defined.

(** ** A demo session, from start to token *)

Lemma truthy_prop_in (v : JsVal) (k : string) :
  truthy (prop v k) = true -> js_in k v = Some true.
Proof.
  destruct v; simpl; try discriminate.
  destruct (assoc k props); simpl; [reflexivity | discriminate].
Qed.

Lemma start_demo_outcome
  (pe : ProcessEnv) (w : World) (args : JsVal) (st : State)
  (r : Response) (result : JsVal) :
  LIVEAUTH_DEMO pe = true ->
  nullish args = false ->
  fetch_outcome w (start_request pe args) = Responded r ->
  ok r = true ->
  json_body r = Some result ->
  truthy (prop result "invoice") = true ->
  invoke pe w "liveauth_mcp_start" args st
  = {| reply := text_result (JSON_stringify (start_demo_reply result));
       after := {| cachedJwt := cachedJwt st;
                   demoSessions :=
                     map_set (start_sessionId result) (start_session w result)
                       (demoSessions st) |};
       requests := [start_request pe args];
       stderr := [] |}.
Proof.
  intros Hd Ha Hf Hok Hb Hi. pose proof (truthy_prop_in _ _ Hi) as Hin.
  run_tool. rewrite Ha. simpl. rewrite Hf, Hok, Hb, Hd, Hin. simpl. rewrite Hi.
  reflexivity.
Qed.

(** X8.  In demo mode, a start whose answer holds an invoice opens a
    session under the id of the answer ([quoteId], or else [sessionId]),
    not paid and dated by the clock, and replies with that id and no
    challenge.  With the id that was replied, a status call answers
    [pending] until the clock is more than 2000 ms past the start and
    [paid] after, and a confirm call is answered with a token. *)
Theorem demo_start_opens_session
  (pe : ProcessEnv) (w : World) (args : JsVal) (st : State)
  (r : Response) (result : JsVal) :
  LIVEAUTH_DEMO pe = true ->
  nullish args = false ->
  fetch_outcome w (start_request pe args) = Responded r ->
  ok r = true ->
  json_body r = Some result ->
  truthy (prop result "invoice") = true ->
  same_value_zero (start_sessionId result) (start_sessionId result) = true ->
  let id := start_sessionId result in
  let o := invoke pe w "liveauth_mcp_start" args st in
  isError (reply o) = false
  /\ json_field (text (reply o)) "quoteId"
     = (if is_undef id then None else Some (json_norm id))
  /\ json_field (text (reply o)) "powChallenge" = Some VNull
  /\ (exists s : DemoSession,
         map_get id (demoSessions (after o)) = Some s
         /\ paid s = false /\ createdAt s = Date_now w 0)
  /\ cachedJwt (after o) = cachedJwt st
  /\ (forall (w' : World) (args' : JsVal),
         nullish args' = false ->
         prop args' "quoteId" = id ->
         payment_status (invoke pe w' "liveauth_mcp_status" args' (after o))
         = Some (VStr (if 2000 <? Date_now w' 0 - Date_now w 0 then "paid" else "pending"))
         /\ json_field (text (reply (invoke pe w' "liveauth_mcp_confirm" args' (after o))))
              "jwt"
            = Some (VStr (demoJwt w'))).
Proof.
  intros Hd Ha Hf Hok Hb Hi Hid id o. subst o.
  rewrite (start_demo_outcome pe w args st r result Hd Ha Hf Hok Hb Hi).
  cbn [reply after text text_result isError cachedJwt demoSessions].
  assert (Hget : map_get id (map_set id (start_session w result) (demoSessions st))
                 = Some (start_session w result))
    by (apply map_get_set_same; exact Hid).
  split; [reflexivity|]. split; [|split; [|split; [|split]]].
  - unfold JSON_stringify, start_demo_reply. rewrite json_norm_obj. fold id.
    rewrite Hi. cbn -[json_norm]. destruct (is_undef id); reflexivity.
  - unfold JSON_stringify, start_demo_reply. rewrite json_norm_obj. fold id.
    rewrite Hi. cbn -[json_norm]. destruct (is_undef id); reflexivity.
  - exists (start_session w result). repeat split. exact Hget.
  - reflexivity.
  - intros w' args' Ha' Hq'. split.
    + rewrite (status_by_elapsed pe w' args' _ (start_session w result) Hd Ha');
        [reflexivity|].
      rewrite Hq'. exact Hget.
    + rewrite (confirm_demo_outcome pe w' args' _ Hd Ha'); [reflexivity|].
      unfold map_has. cbn [demoSessions]. rewrite Hq'. fold id. rewrite Hget.
      reflexivity.
Qed.

Lemma demo_start_opens_session_witness :
  let issued :=
    VObj [("sessionId", VStr "q_1");
          ("invoice", VObj [("bolt11", VStr "lnbc10n1demo"); ("amountSats", VNum 10)])] in
  let r := {| ok := true; statusText := "OK"; json_body := Some issued |} in
  let w := Samples.world_at 1000 (fun _ => Responded r) in
  let o := invoke Samples.demo w "liveauth_mcp_start" (VObj []) initial in
  json_field (text (reply o)) "quoteId" = Some (VStr "q_1")
  /\ payment_status
       (invoke Samples.demo (Samples.world_at 3000 (Samples.answers VNull))
          "liveauth_mcp_status" (Samples.quote_args "q_1") (after o))
     = Some (VStr "pending")
  /\ payment_status
       (invoke Samples.demo (Samples.world_at 3001 (Samples.answers VNull))
          "liveauth_mcp_status" (Samples.quote_args "q_1") (after o))
     = Some (VStr "paid").
Proof.
  intros issued r w o.
  destruct (demo_start_opens_session Samples.demo w (VObj []) initial r issued
              eq_refl eq_refl eq_refl eq_refl eq_refl eq_refl eq_refl)
    as (_ & Hq & _ & _ & _ & Hnext).
  split; [exact Hq|]. split.
  - exact (proj1 (Hnext (Samples.world_at 3000 (Samples.answers VNull))
                    (Samples.quote_args "q_1") eq_refl eq_refl)).
  - exact (proj1 (Hnext (Samples.world_at 3001 (Samples.answers VNull))
                    (Samples.quote_args "q_1") eq_refl eq_refl)).
Defined.

(** X9.  Charge has no demo branch: in demo mode, after a confirm has minted
    a demo token, a charge sends that token as a bearer credential to the
    charge endpoint of the remote service. *)
Theorem demo_token_is_charged_remotely
  (pe : ProcessEnv) (w w' : World) (args cargs : JsVal) (st : State) :
  LIVEAUTH_DEMO pe = true ->
  nullish args = false ->
  map_has (prop args "quoteId") (demoSessions st) = true ->
  nullish cargs = false ->
  let st' := after (invoke pe w "liveauth_mcp_confirm" args st) in
  let req := charge_request pe w' (VStr (demoJwt w)) cargs in
  requests (invoke pe w' "liveauth_mcp_charge" cargs st') = [req]
  /\ url req = LIVEAUTH_API_BASE pe +:+ "/api/mcp/charge"
  /\ header "Authorization" (headers req) = Some ("Bearer " +:+ demoJwt w).
Proof.
  intros Hd Ha Hh Hc st' req. subst st' req.
  rewrite (confirm_demo_outcome pe w args st Hd Ha Hh). cbn [after].
  rewrite (charge_sends pe w' cargs _ Hc) by (intros _; reflexivity).
  cbn [cachedJwt]. repeat split.
Qed.

Lemma demo_token_is_charged_remotely_witness :
  let w := Samples.world_at 500 (Samples.answers VNull) in
  let st' := after (invoke Samples.demo w "liveauth_mcp_confirm" (Samples.quote_args "q_1")
                      (Samples.with_session "q_1" 0 false)) in
  let cargs := VObj [("callCostSats", VNum 3)] in
  map url (requests (invoke Samples.demo w "liveauth_mcp_charge" cargs st'))
  = ["https://api.liveauth.app/api/mcp/charge"]
  /\ header "Authorization" (headers (charge_request Samples.demo w (VStr (demoJwt w)) cargs))
     = Some "Bearer demo_jwt_500_k3x9q0v7a".
Proof.
  intros w st' cargs.
  destruct (demo_token_is_charged_remotely Samples.demo w w (Samples.quote_args "q_1") cargs
              (Samples.with_session "q_1" 0 false) eq_refl eq_refl eq_refl eq_refl)
    as (Hreq & _ & Hauth).
  split; [|exact Hauth].
  fold st' in Hreq. rewrite Hreq. reflexivity.
Defined.

(** ** What the replies and the error stream hold *)

(** X10.  The only line that is ever written to the error stream is the
    refresh token of a confirm response: a 2xx response that does not
    report a pending payment and has a truthy [refreshToken].  No other
    tool writes there, and the cached JWT is never written. *)
Theorem only_refresh_token_is_logged
  (pe : ProcessEnv) (w : World) (name : string) (args : JsVal) (st : State)
  (line : string) :
  In line (stderr (invoke pe w name args st)) ->
  name = "liveauth_mcp_confirm"
  /\ exists (r : Response) (result : JsVal),
       fetch_outcome w (confirm_request pe args) = Responded r
       /\ ok r = true
       /\ json_body r = Some result
       /\ is_str "pending" (prop result "paymentStatus") = false
       /\ truthy (prop result "refreshToken") = true
       /\ stderr (invoke pe w name args st) = [refresh_token_line w result].
Proof.
  unfold refresh_token_line.
  every_tool name; simpl; intros Hin;
    try (destruct Hin; fail);
    destruct Hin as [<-|[]];
    match goal with
    | H : String.eqb name _ = true |- _ => apply String.eqb_eq in H
    end;
    (split; [assumption|]); eexists; eexists; repeat split; eassumption.
Qed.

Lemma only_refresh_token_is_logged_witness :
  let result := VObj [("jwt", VStr "J1"); ("refreshToken", VStr "rt_9")] in
  let w := Samples.world_at 0 (Samples.answers result) in
  let o := invoke Samples.live w "liveauth_mcp_confirm" (Samples.quote_args "q_1") initial in
  In "Refresh token: rt_9 (save this to refresh without re-auth)" (stderr o)
  /\ stderr o = [refresh_token_line w result].
Proof.
  intros result w o.
  assert (Hin : In "Refresh token: rt_9 (save this to refresh without re-auth)" (stderr o))
    by (left; reflexivity).
  split; [exact Hin|].
  destruct (only_refresh_token_is_logged Samples.live w "liveauth_mcp_confirm"
              (Samples.quote_args "q_1") initial _ Hin)
    as (_ & r & result' & Hf & _ & Hb & _ & _ & Hlog).
  injection Hf as <-. injection Hb as <-. exact Hlog.
Defined.

(** X11.  A call without an argument bag ([undefined] or [null]) to any
    tool but usage is answered with the error flag before anything is
    sent or changed; usage does not look at its arguments at all. *)
Theorem missing_argument_bag
  (pe : ProcessEnv) (w : World) (name : string) (args : JsVal) (st : State) :
  nullish args = true ->
  (In name TOOLS ->
   name <> "liveauth_mcp_usage" ->
   isError (reply (invoke pe w name args st)) = true
   /\ requests (invoke pe w name args st) = []
   /\ after (invoke pe w name args st) = st)
  /\ (forall args' : JsVal,
        invoke pe w "liveauth_mcp_usage" args st
        = invoke pe w "liveauth_mcp_usage" args' st).
Proof.
  intros Ha. split.
  - intros Hin Hu. simpl in Hin.
    destruct Hin as [<-|[<-|[<-|[<-|[<-|[<-|[<-|[]]]]]]]];
      try congruence;
      run_tool; rewrite Ha; destruct st; repeat split.
  - intros args'. reflexivity.
Qed.

Lemma missing_argument_bag_witness :
  let w := Samples.world_at 0 (Samples.answers (VObj [("jwt", VStr "J1")])) in
  let o := invoke Samples.live w "liveauth_mcp_refresh" VUndef initial in
  isError (reply o) = true /\ requests o = [] /\ after o = initial.
Proof.
  intros w o.
  destruct (missing_argument_bag Samples.live w "liveauth_mcp_refresh" VUndef initial eq_refl)
    as [Hbag _].
  apply Hbag.
  - simpl. tauto.
  - discriminate.
Defined.

(** X12.  What is relayed.  When the request of a call is answered with a
    JSON body and the reply does not carry the error flag, the text of the
    reply is that body, serialised as it came; but for the two replies the
    bridge words itself: the pending notice of confirm, and the reply of
    start in demo mode to an answer that has an [invoice] field. *)
Theorem replies_relay_the_body
  (pe : ProcessEnv) (w : World) (name : string) (args : JsVal) (st : State)
  (req : HttpRequest) (r : Response) (result : JsVal) :
  In req (requests (invoke pe w name args st)) ->
  fetch_outcome w req = Responded r ->
  json_body r = Some result ->
  is_json result = true ->
  isError (reply (invoke pe w name args st)) = false ->
  text (reply (invoke pe w name args st)) = JsonText result
  \/ (name = "liveauth_mcp_confirm"
      /\ prop result "paymentStatus" = VStr "pending"
      /\ exists notice : string, text (reply (invoke pe w name args st)) = Lit notice)
  \/ (name = "liveauth_mcp_start"
      /\ LIVEAUTH_DEMO pe = true
      /\ js_in "invoice" result = Some true
      /\ text (reply (invoke pe w name args st)) = JSON_stringify (start_demo_reply result)).
Proof.
  intros Hin Hf Hb Hj. revert Hin.
  every_tool name; simpl; intros Hin Herr;
    try discriminate Herr;
    try (destruct Hin; fail);
    destruct Hin as [<-|[]];
    repeat match goal with
           | H : fetch_outcome _ ?q = _, H' : fetch_outcome _ ?q = _ |- _ =>
               rewrite H in H'; simplify_eq
           end;
    repeat match goal with
           | H : json_body ?a = _, H' : json_body ?a = _ |- _ =>
               rewrite H in H'; simplify_eq
           end;
    match goal with
    | H : String.eqb name _ = true |- _ => apply String.eqb_eq in H
    end;
    lazymatch goal with
    | |- JSON_stringify (start_demo_reply _) = _ \/ _ =>
        right; right; repeat split; (reflexivity || assumption)
    | |- JSON_stringify ?x = JsonText ?x \/ _ =>
        left; unfold JSON_stringify; rewrite json_norm_id by assumption; reflexivity
    | |- Lit _ = _ \/ _ =>
        right; left; split; [assumption|]; split;
        [ match goal with
          | H : is_str "pending" ?v = true |- _ =>
              destruct v; simpl in H; try discriminate H;
              apply String.eqb_eq in H; rewrite H; reflexivity
          end
        | eexists; reflexivity ]
    end.
Qed.

Lemma replies_relay_the_body_witness :
  let result := VObj [("status", VStr "active"); ("callsUsed", VNum 7);
                      ("satsUsed", VNum 21); ("dayWindowStart", VNull)] in
  let r := {| ok := true; statusText := "OK"; json_body := Some result |} in
  let w := Samples.world_at 0 (fun _ => Responded r) in
  let o := invoke Samples.live w "liveauth_mcp_usage" (VObj []) initial in
  In (usage_request Samples.live w VNull) (requests o)
  /\ isError (reply o) = false
  /\ text (reply o) = JsonText result.
Proof.
  intros result r w o.
  assert (Hin : In (usage_request Samples.live w VNull) (requests o)) by (left; reflexivity).
  assert (Herr : isError (reply o) = false) by reflexivity.
  split; [exact Hin|]. split; [exact Herr|].
  destruct (replies_relay_the_body Samples.live w "liveauth_mcp_usage" (VObj []) initial
              (usage_request Samples.live w VNull) r result Hin eq_refl eq_refl eq_refl Herr)
    as [Ht | [(Hn & _) | (Hn & _)]].
  - exact Ht.
  - discriminate Hn.
  - discriminate Hn.
Defined.

(** X13.  Bodies that cannot be used.  A response whose body is not JSON
    always ends in the error flag.  A 2xx response whose body is the JSON
    value [null] ends in the error flag for confirm, charge and refresh,
    which read a field of the body, and for start in demo mode, which tests
    the body for an [invoice] field; usage, status, lnurl, and start in a
    live process, relay it as the text [null] without the error flag. *)
Theorem unusable_bodies
  (pe : ProcessEnv) (w : World) (name : string) (args : JsVal) (st : State)
  (req : HttpRequest) (r : Response) :
  In req (requests (invoke pe w name args st)) ->
  fetch_outcome w req = Responded r ->
  (json_body r = None -> isError (reply (invoke pe w name args st)) = true)
  /\ (ok r = true ->
      json_body r = Some VNull ->
      (In name ["liveauth_mcp_confirm"; "liveauth_mcp_charge"; "liveauth_mcp_refresh"] ->
       isError (reply (invoke pe w name args st)) = true)
      /\ (name = "liveauth_mcp_start" ->
          isError (reply (invoke pe w name args st)) = LIVEAUTH_DEMO pe)
      /\ (In name ["liveauth_mcp_usage"; "liveauth_mcp_status"; "liveauth_mcp_lnurl"] ->
          reply (invoke pe w name args st) = {| text := JsonText VNull; isError := false |})).
Proof.
  intros Hin Hf. revert Hin.
  every_tool name; simpl; intros Hin;
    try (destruct Hin; fail);
    destruct Hin as [<-|[]];
    repeat match goal with
           | H : fetch_outcome _ ?q = _, H' : fetch_outcome _ ?q = _ |- _ =>
               rewrite H in H'; simplify_eq
           end;
    match goal with
    | H : String.eqb name _ = true |- _ => apply String.eqb_eq in H; subst name
    end;
    (split; [intros Hnone; congruence|]);
    intros Hok Hnull;
    repeat match goal with
           | H : json_body ?a = _, H' : json_body ?a = _ |- _ =>
               rewrite H in H'; simplify_eq
           end;
    try congruence;
    (split; [|split]); simpl; intros Hname;
    try reflexivity; try congruence;
    try (exfalso; intuition discriminate).
Qed.

Lemma unusable_bodies_witness :
  let r := {| ok := true; statusText := "OK"; json_body := Some VNull |} in
  let w := Samples.world_at 0 (fun _ => Responded r) in
  let args := VObj [("refreshToken", VStr "rt_1")] in
  In (refresh_request Samples.live args)
     (requests (invoke Samples.live w "liveauth_mcp_refresh" args initial))
  /\ isError (reply (invoke Samples.live w "liveauth_mcp_refresh" args initial)) = true
  /\ after (invoke Samples.live w "liveauth_mcp_refresh" args initial) = initial.
Proof.
  intros r w args.
  assert (Hin : In (refresh_request Samples.live args)
                   (requests (invoke Samples.live w "liveauth_mcp_refresh" args initial)))
    by (left; reflexivity).
  destruct (unusable_bodies Samples.live w "liveauth_mcp_refresh" args initial
              (refresh_request Samples.live args) r Hin eq_refl) as [_ Hnull].
  destruct (Hnull eq_refl eq_refl) as [Herr _].
  split; [exact Hin|]. split; [|reflexivity].
  apply Herr. simpl. tauto.
Defined.

(** X14.  A confirm that the remote service answers with a pending payment
    is not an error: the reply is the notice that names the session id and
    tells to poll status, provided that the id converts to a string (the
    reply is the conversion error otherwise); nothing is cached and nothing
    is written to the error stream, even when the response holds a [jwt] or
    a [refreshToken]. *)
Theorem pending_confirm_is_a_notice
  (pe : ProcessEnv) (w : World) (args : JsVal) (st : State)
  (r : Response) (result : JsVal) :
  LIVEAUTH_DEMO pe && map_has (prop args "quoteId") (demoSessions st) = false ->
  nullish args = false ->
  fetch_outcome w (confirm_request pe args) = Responded r ->
  ok r = true ->
  json_body r = Some result ->
  prop result "paymentStatus" = VStr "pending" ->
  invoke pe w "liveauth_mcp_confirm" args st
  = {| reply :=
         if converts (prop args "quoteId") then
           {| text :=
                Lit ("Lightning payment pending. Poll with liveauth_mcp_status using quoteId: "
                       +:+ to_str w (prop args "quoteId"));
              isError := false |}
         else
           {| text := Lit "Error: Cannot convert object to primitive value";
              isError := true |};
       after := st;
       requests := [confirm_request pe args];
       stderr := [] |}.
Proof.
  intros Hd Ha Hf Hok Hb Hp.
  assert (Hr : nullish result = false) by (destruct result; simpl in *; congruence).
  run_tool. rewrite Ha. simpl.
  destruct (LIVEAUTH_DEMO pe); simpl in Hd |- *; rewrite ?Hd, Hf, Hok, Hb, Hr, Hp;
    destruct st; simpl; destruct (converts (prop args "quoteId")); reflexivity.
Qed.

Lemma pending_confirm_is_a_notice_witness :
  let result := VObj [("jwt", VStr "J9"); ("refreshToken", VStr "rt_9");
                      ("paymentStatus", VStr "pending")] in
  let r := {| ok := true; statusText := "OK"; json_body := Some result |} in
  let w := Samples.world_at 0 (fun _ => Responded r) in
  let o := invoke Samples.live w "liveauth_mcp_confirm" (Samples.quote_args "q_1") initial in
  text (reply o)
  = Lit "Lightning payment pending. Poll with liveauth_mcp_status using quoteId: q_1"
  /\ after o = initial /\ stderr o = [].
Proof.
  intros result r w o. subst o.
  rewrite (pending_confirm_is_a_notice Samples.live w (Samples.quote_args "q_1") initial
             r result eq_refl eq_refl eq_refl eq_refl eq_refl eq_refl).
  repeat split.
Defined.

(** ** The first revision *)

Lemma v1_step
  (pe : ProcessEnv) (w : World) (name : string) (args : JsVal) (st : State) :
  after (IndexV1.invoke pe w name args st) = st
  /\ forall req : HttpRequest,
       In req (requests (IndexV1.invoke pe w name args st)) ->
       headers req = IndexV1.json_headers \/ headers req = authHeaders w (cachedJwt st).
Proof.
  destruct st as [jwt sessions].
  unfold IndexV1.invoke, IndexV1.dispatch.
  repeat match goal with
         | |- context [String.eqb name ?lit] => destruct (String.eqb name lit)
         end;
    unfold IndexV1.handle_start, IndexV1.handle_confirm, IndexV1.handle_charge,
      IndexV1.handle_usage;
    unfold_monad; step_paths; simpl;
    (split; [reflexivity|]); intros req Hin;
    try (destruct Hin; fail);
    destruct Hin as [<-|[]]; simpl; tauto.
Qed.

(** X15.  The first revision never assigns the cached JWT: every call of
    every history leaves the state as it found it, so that, from the
    initial state, no request ever carries an [Authorization] header, not
    even a charge that follows a confirm answered with a [jwt]. *)
Theorem v1_never_caches (pe : ProcessEnv) (calls : list Call) :
  forall (st : State) (c : Call) (o : Outcome),
    In (c, o) (IndexV1.run pe st calls) ->
    after o = st
    /\ (truthy (cachedJwt st) = false ->
        forall req : HttpRequest,
          In req (requests o) -> header "Authorization" (headers req) = None).
Proof.
  induction calls as [|c0 calls IH]; intros st c o Hin.
  - destruct Hin.
  - simpl in Hin.
    destruct (v1_step pe (world c0) (tool c0) (arguments c0) st) as [Hst Hreq].
    destruct Hin as [Heq | Hin].
    + injection Heq as <- <-. split; [exact Hst|].
      intros Hj req Hr. destruct (Hreq req Hr) as [-> | ->].
      * reflexivity.
      * apply authHeaders_falsy. exact Hj.
    + rewrite Hst in Hin. exact (IH st c o Hin).
Qed.

Lemma v1_never_caches_witness :
  let w := Samples.world_at 0 (Samples.answers (VObj [("jwt", VStr "J1"); ("status", VStr "ok")])) in
  let confirm := Samples.call "liveauth_mcp_confirm"
                   (Samples.pow_args (VNum 18) (VStr "sig_test123")) w in
  let charge := Samples.call "liveauth_mcp_charge" (VObj [("callCostSats", VNum 1)]) w in
  let o := IndexV1.invoke Samples.live w "liveauth_mcp_charge" (arguments charge) initial in
  In (charge, o) (IndexV1.run Samples.live initial [confirm; charge])
  /\ json_field (text (reply (IndexV1.invoke Samples.live w "liveauth_mcp_confirm"
                                (arguments confirm) initial))) "jwt" = Some (VStr "J1")
  /\ map (fun req => header "Authorization" (headers req)) (requests o) = [None].
Proof.
  intros w confirm charge o.
  assert (Hin : In (charge, o) (IndexV1.run Samples.live initial [confirm; charge]))
    by (right; left; reflexivity).
  destruct (v1_never_caches Samples.live [confirm; charge] initial charge o Hin)
    as [_ Hnone].
  split; [exact Hin|]. split; [reflexivity|].
  assert (Hreq : requests o = [charge_request Samples.live w VNull (arguments charge)])
    by reflexivity.
  pose proof (Hnone eq_refl (charge_request Samples.live w VNull (arguments charge))
                ltac:(rewrite Hreq; left; reflexivity)) as Hh.
  rewrite Hreq. cbn [map]. rewrite Hh. reflexivity.
Defined.

(** ** Where the demo engine ends *)

(** X16.  Charge, lnurl and refresh have no demo branch: given an argument
    bag, each sends its one request to the remote service, in demo mode as
    in a live process, whatever the session map holds; but charge sends
    nothing when the cached JWT is truthy and does not convert to a string,
    and lnurl sends nothing when the id does not convert. *)
Theorem no_demo_branch
  (pe : ProcessEnv) (w : World) (args : JsVal) (st : State) :
  nullish args = false ->
  requests (invoke pe w "liveauth_mcp_charge" args st)
  = (if negb (truthy (cachedJwt st)) || converts (cachedJwt st)
     then [charge_request pe w (cachedJwt st) args] else [])
  /\ requests (invoke pe w "liveauth_mcp_lnurl" args st)
     = (if converts (prop args "quoteId") then [lnurl_request pe w args] else [])
  /\ requests (invoke pe w "liveauth_mcp_refresh" args st) = [refresh_request pe args]
  /\ header "X-LW-Public" (headers (charge_request pe w (cachedJwt st) args)) = None
  /\ header "X-LW-Public" (headers (refresh_request pe args)) = None.
Proof.
  intros Ha. split; [|split; [|split; [|split]]].
  - destruct (negb (truthy (cachedJwt st)) || converts (cachedJwt st)) eqn:E.
    + apply charge_sends; [exact Ha|]. intros Ht. rewrite Ht in E. exact E.
    + apply orb_false_elim in E. destruct E as [Ht Hc].
      apply negb_false_iff in Ht.
      run_tool. rewrite Ha. destruct st as [jwt sessions]. simpl in *.
      rewrite Ht, Hc. reflexivity.
  - apply lnurl_sends. exact Ha.
  - run_tool. rewrite Ha. simpl. step_paths; reflexivity.
  - apply authHeaders_no_key.
  - reflexivity.
Qed.

Lemma no_demo_branch_witness :
  let w := Samples.world_at 0 (Samples.answers (VObj [("pr", VStr "lnbc1")])) in
  let st := Samples.with_session "q_1" 0 false in
  LIVEAUTH_DEMO Samples.demo = true
  /\ map url (requests (invoke Samples.demo w "liveauth_mcp_lnurl"
                          (Samples.quote_args "q_1") st))
     = ["https://api.liveauth.app/api/mcp/lnurl/q_1"].
Proof.
  intros w st.
  destruct (no_demo_branch Samples.demo w (Samples.quote_args "q_1") st eq_refl)
    as (_ & Hl & _).
  split; [reflexivity|]. rewrite Hl. reflexivity.
Defined.

Lemma map_update_length (k : JsVal) (f : DemoSession -> DemoSession) (m : SessionMap) :
  length (map_update k f m) = length m.
Proof.
  induction m as [|[k0 s0] m IH]; simpl; [reflexivity|].
  destruct (same_value_zero k k0); simpl; [reflexivity | now rewrite IH].
Qed.

Lemma map_set_length (k : JsVal) (s : DemoSession) (m : SessionMap) :
  length (map_set k s m) = (if map_has k m then length m else S (length m)).
Proof.
  unfold map_has. induction m as [|[k0 s0] m IH]; simpl; [reflexivity|].
  destruct (same_value_zero k k0); simpl; [reflexivity|].
  rewrite IH. destruct (map_get k m); reflexivity.
Qed.

(** X17.  The session map grows by at most one session in a call, and only
    in a start call of a process in demo mode that is handed an id which
    has no session yet; a start that is handed an id again replaces the
    session of that id. *)
Theorem sessions_grow_only_on_start
  (pe : ProcessEnv) (w : World) (name : string) (args : JsVal) (st : State) :
  let n := length (demoSessions st) in
  let n' := length (demoSessions (after (invoke pe w name args st))) in
  (n' = n \/ n' = S n)
  /\ (n' <> n ->
      name = "liveauth_mcp_start"
      /\ LIVEAUTH_DEMO pe = true
      /\ exists (r : Response) (result : JsVal),
           fetch_outcome w (start_request pe args) = Responded r
           /\ json_body r = Some result
           /\ map_has (start_sessionId result) (demoSessions st) = false).
Proof.
  intros n n'. subst n n'.
  destruct (sessions_after pe w name args st)
    as [-> | [(k & f & _ & ->) | (Hname & r & result & Hf & Hb & Heq)]].
  - split; [left; reflexivity | congruence].
  - rewrite map_update_length. split; [left; reflexivity | congruence].
  - rewrite Heq, map_set_length.
    destruct (map_has (start_sessionId result) (demoSessions st)) eqn:Hh.
    + split; [left; reflexivity | congruence].
    + split; [right; reflexivity|]. intros _.
      split; [exact Hname|]. split; [|eauto].
      destruct (LIVEAUTH_DEMO pe) eqn:Hd; [reflexivity|].
      pose proof (live_sessions_untouched pe w name args st Hd) as Hsame.
      rewrite Heq in Hsame.
      apply (f_equal (@length _)) in Hsame.
      rewrite map_set_length, Hh in Hsame. lia.
Qed.

Lemma sessions_grow_only_on_start_witness :
  let issued := VObj [("sessionId", VStr "q_2"); ("invoice", VStr "lnbc10n1demo")] in
  let w := Samples.world_at 1000 (Samples.answers issued) in
  let st := Samples.with_session "q_1" 0 true in
  let o := invoke Samples.demo w "liveauth_mcp_start" (VObj []) st in
  length (demoSessions (after o)) <> length (demoSessions st)
  /\ LIVEAUTH_DEMO Samples.demo = true
  /\ length (demoSessions (after o)) = 2%nat.
Proof.
  intros issued w st o.
  assert (Hne : length (demoSessions (after o)) <> length (demoSessions st))
    by (simpl; discriminate).
  destruct (sessions_grow_only_on_start Samples.demo w "liveauth_mcp_start" (VObj []) st)
    as [_ Hwhy].
  destruct (Hwhy Hne) as (_ & Hd & _).
  split; [exact Hne|]. split; [exact Hd | reflexivity].
Defined.
